(** * screen_calc: derived geometry of a display screen

    A shallow embedding of [src/python/screen_calc.py] (class [Screen]) and
    the properties its specification states about it.

    Numbers.  The Python code computes with [float]; here a float is read as
    the real number it stands for ([R] of the Standard Library), so a
    statement about a computed value is a statement about the formulas in
    exact arithmetic.  Rounding, overflow, underflow, [inf] and [nan] are
    outside this model: the [OverflowError] that a power or a division of
    huge operands raises in Python, and the rounding that decides whether a
    float difference is exactly 0.0, have no counterpart on exact reals.
    The theorems on what raises are therefore stated from what an accessor
    has returned (a [ppi] of 0, a returned [width]), which holds of the
    floats as well; where a theorem gives the value of an accessor, it is
    the value of its formula in exact arithmetic.

    Errors.  Python raises; the embedding returns a [result].  Every [/] of
    the source whose divisor is not a literal is the checked division
    [pydiv], which raises [ZeroDivisionError] on a zero divisor the way
    Python does for [int] and [float] operands alike. *)

From Stdlib Require Import Reals Lra Lia ZArith List String Bool.
Import ListNotations.

Local Open Scope R_scope.

(** ** Python values and exceptions *)

(** The exceptions the module can raise.  [OverflowError] is what float
    arithmetic out of range raises; the exact arithmetic of this model never
    raises it. *)
Inductive exn : Type :=
| ValueError (msg : string)
| ZeroDivisionError
| IndexError
| OverflowError.

Inductive result (A : Type) : Type :=
| Ok (a : A)
| Raise (e : exn).

Arguments Ok {A} a.
Arguments Raise {A} e.

Definition bind {A B : Type} (m : result A) (k : A -> result B) : result B :=
  match m with
  | Ok a => k a
  | Raise e => Raise e
  end.

Notation "x <- m ;; k" := (bind m (fun x => k))
  (at level 61, m at next level, right associativity).

(** A number as a caller may put it in the [resolution] tuple: an [int] or a
    [float].  [isinstance(x, int)] is [true] on the first only. *)
Inductive pynum : Type :=
| PyInt (z : Z)
| PyFloat (x : R).

Definition num_val (n : pynum) : R :=
  match n with
  | PyInt z => IZR z
  | PyFloat x => x
  end.

Definition isinstance_int (n : pynum) : bool :=
  match n with
  | PyInt _ => true
  | PyFloat _ => false
  end.

(** What a caller may pass as [resolution]: a tuple, or a list (the
    sequence of the repository's tests that is not a tuple). *)
Inductive pyobj : Type :=
| PyTuple (items : list pynum)
| PyList (items : list pynum).

Definition isinstance_tuple (o : pyobj) : bool :=
  match o with
  | PyTuple _ => true
  | PyList _ => false
  end.

Definition seq_items (o : pyobj) : list pynum :=
  match o with
  | PyTuple items => items
  | PyList items => items
  end.

(** [len(o)]. *)
Definition len (o : pyobj) : nat := List.length (seq_items o).

(** [o[i]] on a tuple or a list. *)
Definition tuple_get (o : pyobj) (i : nat) : result pynum :=
  match nth_error (seq_items o) i with
  | Some v => Ok v
  | None => Raise IndexError
  end.

(** [a / b] with a divisor that is not a literal. *)
Definition pydiv (a b : R) : result R :=
  if Req_dec_T b 0 then Raise ZeroDivisionError else Ok (a / b).

(** [math.sqrt]. *)
Definition py_sqrt (x : R) : result R :=
  if Rlt_dec x 0 then Raise (ValueError "math domain error") else Ok (sqrt x).

(** [math.degrees]. *)
Definition degrees (x : R) : R := x * (180 / PI).

(** [round(x)] on a float: the nearest integer, a tie going to the even
    neighbour. *)
Definition py_round (x : R) : Z :=
  let f := Int_part x in
  let d := x - IZR f in
  if Rlt_dec d (1 / 2) then f
  else if Rlt_dec (1 / 2) d then (f + 1)%Z
  else if Z.even f then f else (f + 1)%Z.

(** ** The class [Screen] *)

Record Screen : Type := mkScreen {
  diagonal : R;
  resolution : pyobj;
  distance : R;
  curvature : option R;
  scaling : R
}.

(** [x > 0] after [isinstance(x, int)]. *)
Definition positive_int (x : pynum) : bool :=
  isinstance_int x && match x with PyInt z => (0 <? z)%Z | PyFloat _ => false end.

(** [Screen.__init__]: the five checks in the order of the source, then the
    five assignments. *)
Definition Screen_init (diagonal : R) (resolution : pyobj) (distance : R)
    (curvature : option R) (scaling : R) : result Screen :=
  if Rle_dec diagonal 0 then
    Raise (ValueError "Diagonal must be a positive number.")
  else if negb (isinstance_tuple resolution && Nat.eqb (len resolution) 2 &&
                forallb positive_int (seq_items resolution)) then
    Raise (ValueError "Resolution must be a tuple of two positive integers (width, height).")
  else if Rle_dec distance 0 then
    Raise (ValueError "Distance must be a positive number.")
  else if match curvature with
          | Some c => if Rlt_dec c 0 then true else false
          | None => false
          end then
    Raise (ValueError "Curvature must be non-negative or None.")
  else if Rle_dec scaling 0 then
    Raise (ValueError "Scaling must be a positive number.")
  else
    Ok (mkScreen diagonal resolution distance curvature scaling).

(** ** Derived properties *)

Definition width (self : Screen) : result R :=
  r0 <- tuple_get (resolution self) 0 ;;
  r1 <- tuple_get (resolution self) 1 ;;
  ratio <- pydiv (num_val r0) (num_val r1) ;;
  q <- pydiv (diagonal self) (sqrt (ratio ^ 2 + 1)) ;;
  let height := q * 25.4 in
  let width := ratio * height in
  Ok width.

Definition height (self : Screen) : result R :=
  r0 <- tuple_get (resolution self) 0 ;;
  r1 <- tuple_get (resolution self) 1 ;;
  ratio <- pydiv (num_val r0) (num_val r1) ;;
  q <- pydiv (diagonal self) (sqrt (ratio ^ 2 + 1)) ;;
  let height := q * 25.4 in
  Ok height.

Definition size (self : Screen) : result (R * R) :=
  w <- width self ;;
  h <- height self ;;
  Ok (w, h).

Definition ppi (self : Screen) : result Z :=
  w <- width self ;;
  let width := w / 25.4 in
  r0 <- tuple_get (resolution self) 0 ;;
  ppi <- pydiv (num_val r0) width ;;
  Ok (py_round ppi).

Definition ppi_scaled (self : Screen) : result Z :=
  p <- ppi self ;;
  q <- pydiv (IZR p) (scaling self) ;;
  Ok (py_round q).

Definition pixel_size (self : Screen) : result R :=
  p <- ppi self ;;
  pydiv 25.4 (IZR p).

Definition fov_horizontal (self : Screen) : result R :=
  match curvature self with
  | None =>
      w <- width self ;;
      q <- pydiv (w / 2) (distance self) ;;
      Ok (degrees (2 * atan q))
  | Some c =>
      w <- width self ;;
      arc_angle <- pydiv w c ;;
      let arc_width := 2 * c * sin (arc_angle / 2) in
      let arc_depth := c * (1 - cos (arc_angle / 2)) in
      let arc_end_dist := distance self - arc_depth in
      q <- pydiv (arc_width / 2) arc_end_dist ;;
      let angle := degrees (2 * atan q) in
      Ok (if Rge_dec angle 0 then angle else 360 + angle)
  end.

Definition fov_vertical (self : Screen) : result R :=
  height <- height self ;;
  q <- pydiv (height / 2) (distance self) ;;
  Ok (degrees (2 * atan q)).

Definition ppd (self : Screen) : result R :=
  ps <- pixel_size self ;;
  q <- pydiv ps (distance self) ;;
  let angle := degrees (atan q) in
  pydiv 1 angle.

Definition ppd_edge (self : Screen) : result R :=
  match curvature self with
  | None =>
      w <- width self ;;
      distance_edge <- py_sqrt (distance self ^ 2 + (w / 2) ^ 2) ;;
      ps <- pixel_size self ;;
      q <- pydiv ps distance_edge ;;
      let angle := degrees (atan q) in
      pydiv 1 angle
  | Some c =>
      w <- width self ;;
      arc_angle <- pydiv w c ;;
      let arc_width := 2 * c * sin (arc_angle / 2) in
      let arc_depth := c * (1 - cos (arc_angle / 2)) in
      let arc_end_dist := distance self - arc_depth in
      distance_edge <- py_sqrt (arc_end_dist ^ 2 + (arc_width / 2) ^ 2) ;;
      ps <- pixel_size self ;;
      q <- pydiv ps distance_edge ;;
      let angle := degrees (atan q) in
      pydiv 1 angle
  end.

Definition resolution_scaled (self : Screen) : result (Z * Z) :=
  r0 <- tuple_get (resolution self) 0 ;;
  a <- pydiv (num_val r0) (scaling self) ;;
  r1 <- tuple_get (resolution self) 1 ;;
  b <- pydiv (num_val r1) (scaling self) ;;
  Ok (py_round a, py_round b).

(** ** Construction and validation *)

(** The five constructor parameters, as the error messages name them. *)
Inductive field : Type :=
| Field_diagonal
| Field_resolution
| Field_distance
| Field_curvature
| Field_scaling.

Definition field_name (f : field) : string :=
  match f with
  | Field_diagonal => "Diagonal"
  | Field_resolution => "Resolution"
  | Field_distance => "Distance"
  | Field_curvature => "Curvature"
  | Field_scaling => "Scaling"
  end.

(** The message [__init__] raises for each field. *)
Definition error_message (f : field) : string :=
  match f with
  | Field_diagonal => "Diagonal must be a positive number."
  | Field_resolution =>
      "Resolution must be a tuple of two positive integers (width, height)."
  | Field_distance => "Distance must be a positive number."
  | Field_curvature => "Curvature must be non-negative or None."
  | Field_scaling => "Scaling must be a positive number."
  end.

(** An entry is integral when its value is an integer, whatever its type. *)
Definition integral (x : pynum) : Prop := exists z : Z, num_val x = IZR z.

(** The validation rules in the words of the specification: what it means
    for the rule of field [f] to be violated by the constructor's inputs.
    The resolution rule speaks of the number of entries and of entries that
    are non-integral or non-positive. *)
Definition rule_as_claimed (f : field) (d : R) (r : pyobj) (dist : R)
    (c : option R) (s : R) : Prop :=
  match f with
  | Field_diagonal => d <= 0
  | Field_resolution =>
      len r <> 2%nat \/
      exists x, In x (seq_items r) /\ (~ integral x \/ num_val x <= 0)
  | Field_distance => dist <= 0
  | Field_curvature => exists x, c = Some x /\ x < 0
  | Field_scaling => s <= 0
  end.

(** The validation rules as [__init__] checks them.  The resolution rule is
    violated by anything that is not a tuple, that has not exactly two
    entries, or that has an entry that is not an [int] or is not positive. *)
Definition rule_violated (f : field) (d : R) (r : pyobj) (dist : R)
    (c : option R) (s : R) : Prop :=
  match f with
  | Field_diagonal => d <= 0
  | Field_resolution =>
      isinstance_tuple r = false \/
      len r <> 2%nat \/
      exists x, In x (seq_items r) /\ (isinstance_int x = false \/ num_val x <= 0)
  | Field_distance => dist <= 0
  | Field_curvature => exists x, c = Some x /\ x < 0
  | Field_scaling => s <= 0
  end.

(** What [__init__] has checked of an object it returned. *)
Record valid (self : Screen) : Prop := mkValid {
  valid_diagonal : 0 < diagonal self;
  valid_resolution :
    exists w h : Z,
      resolution self = (PyTuple [PyInt w; PyInt h]) /\ (0 < w)%Z /\ (0 < h)%Z;
  valid_distance : 0 < distance self;
  valid_curvature : forall c, curvature self = Some c -> 0 <= c;
  valid_scaling : 0 < scaling self
}.

(** ** Closed forms and the screens of the examples *)

(** The formulas of the specification, on the stored diagonal and the two
    pixel counts. *)
Definition aspect_ratio (w h : Z) : R := IZR w / IZR h.

Definition height_mm (d : R) (w h : Z) : R :=
  d / sqrt (aspect_ratio w h ^ 2 + 1) * 25.4.

Definition width_mm (d : R) (w h : Z) : R :=
  aspect_ratio w h * height_mm d w h.

(** The density before rounding: pixels across over inches across. *)
Definition ppi_exact (d : R) (w h : Z) : R := IZR w / (width_mm d w h / 25.4).

(** The arc quantities of the source, as functions of the width (the arc
    length), the curvature radius and the distance. *)
Definition arc_angle (wv c : R) : R := wv / c.

Definition arc_width (wv c : R) : R := 2 * c * sin (arc_angle wv c / 2).

Definition arc_depth (wv c : R) : R := c * (1 - cos (arc_angle wv c / 2)).

Definition arc_end_dist (wv c dist : R) : R := dist - arc_depth wv c.

(** [angle if angle >= 0 else 360 + angle]. *)
Definition normalize_angle (angle : R) : R :=
  if Rge_dec angle 0 then angle else 360 + angle.

(** Eye to edge of the arc. *)
Definition arc_edge_distance (wv c dist : R) : R :=
  sqrt (arc_end_dist wv c dist ^ 2 + (arc_width wv c / 2) ^ 2).

(** The flat 27-inch 1920x1080 panel at 600 mm of the repository's tests. *)
Definition flat_monitor : Screen := mkScreen 27 (PyTuple [PyInt 1920; PyInt 1080]) 600 None 1.

(** The curved 34-inch 3440x1440 panel of radius 1000 mm at 700 mm of the
    repository's tests. *)
Definition curved_monitor : Screen :=
  mkScreen 34 (PyTuple [PyInt 3440; PyInt 1440]) 700 (Some 1000) 1.

(** A 100-inch panel of one pixel: a valid screen whose density rounds
    to 0. *)
Definition one_pixel_wall : Screen := mkScreen 100 (PyTuple [PyInt 1; PyInt 1]) 600 None 1.

(** The order in which [__init__] checks the fields. *)
Definition field_index (f : field) : nat :=
  match f with
  | Field_diagonal => 0
  | Field_resolution => 1
  | Field_distance => 2
  | Field_curvature => 3
  | Field_scaling => 4
  end.

(** Python's formatting of the values [__str__] interpolates: a number or a
    tuple as [str] prints it, an [int], a pair of [int]s, and a float under
    the format specification [.nf].  They are built-ins of the language, not
    code of the module, and are taken as given. *)
Record formatter : Type := mkFormatter {
  fmt_num : R -> string;
  fmt_tuple : pyobj -> string;
  fmt_int : Z -> string;
  fmt_int_pair : Z * Z -> string;
  fmt_fixed : nat -> R -> string
}.

(** [{self.curvature}]: [None] or the number. *)
Definition fmt_optional (F : formatter) (c : option R) : string :=
  match c with
  | None => "None"
  | Some x => fmt_num F x
  end.

(** [Screen.__str__]: the f-string evaluates its fields from left to right
    ([self.size] twice), and the first accessor that raises ends it. *)
Definition Screen_str (F : formatter) (self : Screen) : result string :=
  w <- width self ;;
  h <- height self ;;
  size0 <- size self ;;
  size1 <- size self ;;
  p <- ppi self ;;
  p_scaled <- ppi_scaled self ;;
  ps <- pixel_size self ;;
  fov_h <- fov_horizontal self ;;
  fov_v <- fov_vertical self ;;
  pd <- ppd self ;;
  pd_edge <- ppd_edge self ;;
  r_scaled <- resolution_scaled self ;;
  Ok (String.concat ""
        ["Screen(";
         "diagonal="; fmt_num F (diagonal self); ", ";
         "resolution="; fmt_tuple F (resolution self); ", ";
         "distance="; fmt_num F (distance self); ", ";
         "curvature="; fmt_optional F (curvature self); ", ";
         "scaling="; fmt_num F (scaling self); ", ";
         "width="; fmt_fixed F 2 w; ", ";
         "height="; fmt_fixed F 2 h; ", ";
         "size=("; fmt_fixed F 2 (fst size0); ", "; fmt_fixed F 2 (snd size1); "), ";
         "ppi="; fmt_int F p; ", ";
         "ppi_scaled="; fmt_int F p_scaled; ", ";
         "pixel_size="; fmt_fixed F 4 ps; ", ";
         "fov_horizontal="; fmt_fixed F 2 fov_h; ", ";
         "fov_vertical="; fmt_fixed F 2 fov_v; ", ";
         "ppd="; fmt_fixed F 2 pd; ", ";
         "ppd_edge="; fmt_fixed F 2 pd_edge; ", ";
         "resolution_scaled="; fmt_int_pair F r_scaled;
         ")"]%string).

(** A formatter for the examples, which prints every value as a dash: the
    properties of [__str__] below hold whatever the formatter prints. *)
Definition dash_formatter : formatter :=
  mkFormatter (fun _ => "-"%string) (fun _ => "-"%string) (fun _ => "-"%string)
    (fun _ => "-"%string) (fun _ _ => "-"%string).

(** The screen of the module's example run. *)
Definition example_screen : Screen :=
  mkScreen 45 (PyTuple [PyInt 5120; PyInt 2160]) 800 (Some 800) 1.25.

(** ** Lemmas on validation *)

Lemma positive_int_spec (x : pynum) :
  positive_int x = true <-> isinstance_int x = true /\ 0 < num_val x.
Proof.
  destruct x as [z | x]; unfold positive_int; cbn [isinstance_int num_val andb].
  - rewrite Z.ltb_lt. split.
    + intros H. split; [reflexivity | now apply IZR_lt].
    + intros [_ H]. now apply lt_IZR.
  - split; [discriminate | intros [H _]; discriminate].
Qed.

Lemma positive_int_false (x : pynum) :
  positive_int x = false <-> isinstance_int x = false \/ num_val x <= 0.
Proof.
  split.
  - intros H. destruct (isinstance_int x) eqn:Hi; [right | now left].
    destruct (Rle_dec (num_val x) 0) as [Hle | Hgt]; [assumption | exfalso].
    assert (Hp : positive_int x = true) by (apply positive_int_spec; split; [assumption | lra]).
    congruence.
  - intros H. destruct (positive_int x) eqn:Hp; [exfalso | reflexivity].
    apply positive_int_spec in Hp. destruct Hp as [Hi Hv].
    destruct H as [H | H]; [congruence | lra].
Qed.

(** The entries check of [__init__]: [all(isinstance(x, int) and x > 0 ...)]. *)
Lemma entries_check_false (l : list pynum) :
  forallb positive_int l = false <->
  exists x, In x l /\ (isinstance_int x = false \/ num_val x <= 0).
Proof.
  split.
  - intros Hf.
    assert (Hex : exists x, In x l /\ positive_int x = false).
    { induction l as [| a l IH]; simpl in Hf; [discriminate |].
      apply andb_false_iff in Hf. destruct Hf as [Ha | Hl].
      - exists a. split; [now left | assumption].
      - destruct (IH Hl) as [x [Hin Hx]]. exists x. split; [now right | assumption]. }
    destruct Hex as [x [Hin Hx]]. exists x. split; [assumption |].
    now apply positive_int_false.
  - intros [x [Hin Hx]]. apply positive_int_false in Hx.
    destruct (forallb positive_int l) eqn:Hf; [| reflexivity].
    rewrite forallb_forall in Hf. rewrite (Hf x Hin) in Hx. discriminate.
Qed.

(** The resolution check of [__init__] fails exactly when the resolution rule
    is violated. *)
Lemma resolution_check_false (r : pyobj) :
  isinstance_tuple r && Nat.eqb (len r) 2 && forallb positive_int (seq_items r) = false <->
  (isinstance_tuple r = false \/
   len r <> 2%nat \/
   exists x, In x (seq_items r) /\ (isinstance_int x = false \/ num_val x <= 0)).
Proof.
  rewrite !andb_false_iff, Nat.eqb_neq, entries_check_false. tauto.
Qed.

Lemma resolution_check_true (r : pyobj) :
  isinstance_tuple r && Nat.eqb (len r) 2 && forallb positive_int (seq_items r) = true ->
  exists w h : Z, r = PyTuple [PyInt w; PyInt h] /\ (0 < w)%Z /\ (0 < h)%Z.
Proof.
  intros H. apply andb_true_iff in H. destruct H as [H Hf].
  apply andb_true_iff in H. destruct H as [Ht Hl].
  apply Nat.eqb_eq in Hl.
  destruct r as [items | items]; [| discriminate]. unfold len in Hl.
  cbn [seq_items] in Hl, Hf.
  destruct items as [| a [| b [| c items]]]; simpl in Hl; try discriminate.
  simpl in Hf. rewrite andb_true_r in Hf. apply andb_true_iff in Hf.
  destruct Hf as [Ha Hb].
  destruct a as [w | x]; [| discriminate]. destruct b as [h | y]; [| discriminate].
  unfold positive_int in Ha, Hb. cbn [isinstance_int andb] in Ha, Hb.
  apply Z.ltb_lt in Ha. apply Z.ltb_lt in Hb.
  exists w, h. auto.
Qed.

(** Whatever [__init__] returns holds the five arguments and is [valid]. *)
Lemma Screen_init_Ok (d : R) (r : pyobj) (dist : R) (c : option R) (s : R)
    (self : Screen) :
  Screen_init d r dist c s = Ok self ->
  self = mkScreen d r dist c s /\ valid self.
Proof.
  unfold Screen_init. intros H.
  destruct (Rle_dec d 0) as [Hd | Hd]; [discriminate |].
  destruct (isinstance_tuple r && Nat.eqb (len r) 2 &&
            forallb positive_int (seq_items r)) eqn:Hr;
    simpl in H; [| discriminate].
  destruct (Rle_dec dist 0) as [Hdist | Hdist]; [discriminate |].
  destruct c as [x |].
  - destruct (Rlt_dec x 0) as [Hx | Hx]; [discriminate |].
    destruct (Rle_dec s 0) as [Hs | Hs]; [discriminate |].
    injection H as <-. split; [reflexivity |].
    constructor; simpl; try lra.
    + now apply resolution_check_true.
    + intros c' Hc. injection Hc as <-. lra.
  - destruct (Rle_dec s 0) as [Hs | Hs]; [discriminate |].
    injection H as <-. split; [reflexivity |].
    constructor; simpl; try lra.
    + now apply resolution_check_true.
    + discriminate.
Qed.

(** A [valid] record is one [__init__] returns on its own fields. *)
Lemma valid_Screen_init (self : Screen) :
  valid self ->
  Screen_init (diagonal self) (resolution self) (distance self)
    (curvature self) (scaling self) = Ok self.
Proof.
  intros [Hd [w [h [Hr [Hw Hh]]]] Hdist Hc Hs]. unfold Screen_init.
  destruct (Rle_dec (diagonal self) 0); [lra |].
  rewrite Hr. unfold positive_int, len.
  cbn [isinstance_tuple seq_items List.length Nat.eqb forallb isinstance_int andb].
  apply Z.ltb_lt in Hw. apply Z.ltb_lt in Hh. rewrite Hw, Hh.
  cbn [andb negb].
  destruct (Rle_dec (distance self) 0); [lra |].
  destruct (curvature self) as [x |] eqn:Hx.
  - specialize (Hc x eq_refl). destruct (Rlt_dec x 0); [lra |].
    destruct (Rle_dec (scaling self) 0); [lra |].
    rewrite <- Hr, <- Hx. now destruct self.
  - destruct (Rle_dec (scaling self) 0); [lra |].
    rewrite <- Hr, <- Hx. now destruct self.
Qed.

(** A raised error is the [ValueError] of a field whose rule is violated. *)
Lemma Screen_init_Raise (d : R) (r : pyobj) (dist : R) (c : option R) (s : R)
    (e : exn) :
  Screen_init d r dist c s = Raise e ->
  exists f, e = ValueError (error_message f) /\ rule_violated f d r dist c s.
Proof.
  unfold Screen_init. intros H.
  destruct (Rle_dec d 0) as [Hd | Hd].
  { injection H as <-. now exists Field_diagonal. }
  destruct (isinstance_tuple r && Nat.eqb (len r) 2 &&
            forallb positive_int (seq_items r)) eqn:Hr;
    cbn [negb] in H.
  2:{ injection H as <-. exists Field_resolution. split; [reflexivity |].
      now apply resolution_check_false. }
  destruct (Rle_dec dist 0) as [Hdist | Hdist].
  { injection H as <-. now exists Field_distance. }
  destruct c as [x |].
  - destruct (Rlt_dec x 0) as [Hx | Hx].
    { injection H as <-. exists Field_curvature. split; [reflexivity |].
      now exists x. }
    destruct (Rle_dec s 0) as [Hs | Hs]; [| discriminate].
    injection H as <-. now exists Field_scaling.
  - destruct (Rle_dec s 0) as [Hs | Hs]; [| discriminate].
    injection H as <-. now exists Field_scaling.
Qed.

(** With no rule violated, [__init__] returns the object of the five inputs. *)
Lemma Screen_init_accepts (d : R) (r : pyobj) (dist : R) (c : option R) (s : R) :
  (forall f, ~ rule_violated f d r dist c s) ->
  Screen_init d r dist c s = Ok (mkScreen d r dist c s).
Proof.
  intros H.
  destruct (Screen_init d r dist c s) as [self | e] eqn:Hi.
  - apply Screen_init_Ok in Hi. destruct Hi as [-> _]. reflexivity.
  - apply Screen_init_Raise in Hi. destruct Hi as [f [_ Hf]].
    now destruct (H f).
Qed.

(** C1, as stated, fails: the rule on the resolution is more than a count of
    entries and their integrality.  The list [1920, 1080] has exactly two
    entries, both integral and positive, and the tuple (1920.0, 1080) too;
    neither violates a rule of the claim, and [__init__] rejects both, the
    first for not being a tuple, the second for the [float] entry. *)
Lemma Screen_init_validation_counterexample :
  (Screen_init 27 (PyList [PyInt 1920; PyInt 1080]) 600 None 1 =
   Raise (ValueError (error_message Field_resolution)) /\
   forall f, ~ rule_as_claimed f 27 (PyList [PyInt 1920; PyInt 1080]) 600 None 1) /\
  (Screen_init 27 (PyTuple [PyFloat 1920; PyInt 1080]) 600 None 1 =
   Raise (ValueError (error_message Field_resolution)) /\
   forall f, ~ rule_as_claimed f 27 (PyTuple [PyFloat 1920; PyInt 1080]) 600 None 1).
Proof.
  split; (split;
    [unfold Screen_init; destruct (Rle_dec 27 0); [lra | reflexivity] |]);
    intros [] H; simpl in H; try lra;
    try (destruct H as [x [H _]]; discriminate H).
  - destruct H as [H | [x [[<- | [<- | []]] [H | H]]]]; simpl in H; try lra.
    + now apply H.
    + apply H. now exists 1920%Z.
    + apply H. now exists 1080%Z.
  - destruct H as [H | [x [[<- | [<- | []]] [H | H]]]]; simpl in H; try lra.
    + now apply H.
    + apply H. now exists 1920%Z.
    + apply H. now exists 1080%Z.
Qed.

(** C1, amended.  [Screen(diagonal, resolution, distance, curvature,
    scaling)] raises exactly when one of the validation rules is violated:
    diagonal <= 0; a resolution that is not a tuple, or has not exactly two
    entries, or has an entry that is not an [int] or is not positive;
    distance <= 0; a curvature that is present and negative; scaling <= 0.
    The error raised is then the [ValueError] (the specification's
    InvalidParameter) whose message starts with the name of a field whose
    rule is violated.  When no rule is violated the constructor returns the
    object holding exactly the five inputs; a curvature that is absent or
    equal to 0 violates no rule. *)
Theorem Screen_init_validation :
  forall (d : R) (r : pyobj) (dist : R) (c : option R) (s : R),
    ((exists e, Screen_init d r dist c s = Raise e) <->
     (exists f, rule_violated f d r dist c s)) /\
    (forall e, Screen_init d r dist c s = Raise e ->
       exists f, e = ValueError (error_message f) /\
                 prefix (field_name f) (error_message f) = true /\
                 rule_violated f d r dist c s) /\
    ((forall f, ~ rule_violated f d r dist c s) ->
       Screen_init d r dist c s = Ok (mkScreen d r dist c s)) /\
    (c = None \/ c = Some 0 -> ~ rule_violated Field_curvature d r dist c s).
Proof.
  intros d r dist c s. repeat split.
  - intros [e He]. apply Screen_init_Raise in He.
    destruct He as [f [_ Hf]]. now exists f.
  - intros [f Hf].
    destruct (Screen_init d r dist c s) as [self | e] eqn:Hi; [exfalso | now exists e].
    apply Screen_init_Ok in Hi. destruct Hi as [-> [Hd [w [h [Hr [Hw Hh]]]] Hdist Hc Hs]].
    simpl in *.
    destruct f; simpl in Hf.
    + lra.
    + subst r. destruct Hf as [Ht | [Hl | [x [Hin Hx]]]];
        [discriminate Ht | now apply Hl |].
      apply IZR_lt in Hw, Hh.
      destruct Hin as [<- | [<- | []]]; simpl in Hx; destruct Hx; (discriminate || lra).
    + lra.
    + destruct Hf as [x [-> Hx]]. specialize (Hc x eq_refl). lra.
    + lra.
  - intros e He. apply Screen_init_Raise in He.
    destruct He as [f [-> Hf]]. exists f. repeat split; [| assumption].
    now destruct f.
  - apply Screen_init_accepts.
  - intros [-> | ->] [x [Hx Hlt]]; [discriminate |].
    injection Hx as <-. lra.
Qed.

(** The constructor on the inputs of the repository's tests. *)
Example Screen_init_flat_monitor :
  Screen_init 27 (PyTuple [PyInt 1920; PyInt 1080]) 600 None 1 =
  Ok (mkScreen 27 (PyTuple [PyInt 1920; PyInt 1080]) 600 None 1).
Proof.
  unfold Screen_init. destruct (Rle_dec 27 0); [lra |]. simpl.
  destruct (Rle_dec 600 0); [lra |].
  destruct (Rle_dec 1 0); [lra | reflexivity].
Qed.

Example Screen_init_list_resolution :
  Screen_init 27 (PyList [PyInt 1920; PyInt 1080]) 600 None 1 =
  Raise (ValueError (error_message Field_resolution)).
Proof.
  unfold Screen_init. destruct (Rle_dec 27 0); [lra | reflexivity].
Qed.

Example Screen_init_zero_curvature :
  Screen_init 27 (PyTuple [PyInt 1920; PyInt 1080]) 600 (Some 0) 1 =
  Ok (mkScreen 27 (PyTuple [PyInt 1920; PyInt 1080]) 600 (Some 0) 1).
Proof.
  unfold Screen_init. destruct (Rle_dec 27 0); [lra |]. simpl.
  destruct (Rle_dec 600 0); [lra |].
  destruct (Rlt_dec 0 0); [lra |].
  destruct (Rle_dec 1 0); [lra | reflexivity].
Qed.

Example Screen_init_float_resolution :
  Screen_init 27 (PyTuple [PyFloat 1920.5; PyInt 1080]) 600 None 1 =
  Raise (ValueError (error_message Field_resolution)).
Proof.
  unfold Screen_init. destruct (Rle_dec 27 0); [lra | reflexivity].
Qed.

Example Screen_init_short_resolution :
  Screen_init 27 (PyTuple [PyInt 1920]) 600 None 1 =
  Raise (ValueError (error_message Field_resolution)).
Proof.
  unfold Screen_init. destruct (Rle_dec 27 0); [lra | reflexivity].
Qed.

Example Screen_init_negative_curvature :
  Screen_init 27 (PyTuple [PyInt 1920; PyInt 1080]) 600 (Some (-1000)) 1 =
  Raise (ValueError (error_message Field_curvature)).
Proof.
  unfold Screen_init. destruct (Rle_dec 27 0); [lra |]. simpl.
  destruct (Rle_dec 600 0); [lra |].
  destruct (Rlt_dec (-1000) 0); [reflexivity | lra].
Qed.

(** ** Arithmetic of the model *)

Lemma pydiv_Ok (a b : R) : b <> 0 -> pydiv a b = Ok (a / b).
Proof.
  intros H. unfold pydiv. destruct (Req_dec_T b 0); [contradiction | reflexivity].
Qed.

Lemma pydiv_zero (a : R) : pydiv a 0 = Raise ZeroDivisionError.
Proof.
  unfold pydiv. destruct (Req_dec_T 0 0) as [_ | H]; [reflexivity | now destruct H].
Qed.

Lemma pydiv_Ok_inv (a b v : R) : pydiv a b = Ok v -> b <> 0 /\ v = a / b.
Proof.
  unfold pydiv. destruct (Req_dec_T b 0); [discriminate |].
  intros H. injection H as <-. now split.
Qed.

Lemma pydiv_Raise_inv (a b : R) (e : exn) :
  pydiv a b = Raise e -> b = 0 /\ e = ZeroDivisionError.
Proof.
  unfold pydiv. destruct (Req_dec_T b 0); [| discriminate].
  intros H. injection H as <-. now split.
Qed.

Lemma py_sqrt_Ok (x : R) : 0 <= x -> py_sqrt x = Ok (sqrt x).
Proof.
  intros H. unfold py_sqrt. destruct (Rlt_dec x 0); [lra | reflexivity].
Qed.

Lemma degrees_pos (x : R) : 0 < x -> 0 < degrees x.
Proof.
  intros H. unfold degrees. apply Rmult_lt_0_compat; [assumption |].
  apply Rdiv_lt_0_compat; [lra | apply PI_RGT_0].
Qed.

Lemma degrees_lt (x y : R) : x < y -> degrees x < degrees y.
Proof.
  intros H. unfold degrees. apply Rmult_lt_compat_r; [| assumption].
  apply Rdiv_lt_0_compat; [lra | apply PI_RGT_0].
Qed.


Lemma degrees_PI : degrees PI = 180.
Proof. unfold degrees. field. apply PI_neq0. Qed.

Lemma degrees_scale (k x : R) : degrees (k * x) = k * degrees x.
Proof. unfold degrees. ring. Qed.

(** [degrees (2 * atan q)] lies strictly between -180 and 180 and has the
    sign of [q]. *)
Lemma degrees_2atan_bound (q : R) : -180 < degrees (2 * atan q) < 180.
Proof.
  destruct (atan_bound q) as [Hl Hu].
  assert (H1 : degrees (- PI) < degrees (2 * atan q)) by (apply degrees_lt; lra).
  assert (H2 : degrees (2 * atan q) < degrees PI) by (apply degrees_lt; lra).
  replace (- PI) with (-1 * PI) in H1 by ring.
  rewrite degrees_scale in H1. rewrite degrees_PI in H1, H2. lra.
Qed.

Lemma atan_pos (q : R) : 0 < q -> 0 < atan q.
Proof. intros H. rewrite <- atan_0. now apply atan_increasing. Qed.


(** [atan] stays below the identity on the positive reals: its derivative
    [1 / (1 + c^2)] is below 1 there. *)
Lemma atan_lt_x (x : R) : 0 < x -> atan x < x.
Proof.
  intros Hx.
  destruct (MVT_cor1 atan 0 x derivable_pt_atan Hx) as [c [Heq [Hc0 Hcx]]].
  rewrite derive_pt_atan, atan_0 in Heq.
  assert (Hd : 1 / (1 + c ^ 2) < 1).
  { apply Rmult_lt_reg_r with (1 + c ^ 2); [nra |]. field_simplify; nra. }
  replace (c²) with (c ^ 2) in Heq by (unfold Rsqr; ring).
  nra.
Qed.

Lemma sqrt_between (a b x : R) :
  0 <= a -> 0 <= b -> a ^ 2 < x -> x < b ^ 2 -> a < sqrt x < b.
Proof.
  intros Ha Hb Hax Hxb.
  assert (Hx : 0 <= x) by nra.
  split.
  - replace a with (sqrt (a ^ 2)) by (rewrite <- Rsqr_pow2; now apply sqrt_Rsqr).
    apply sqrt_lt_1; nra.
  - replace b with (sqrt (b ^ 2)) by (rewrite <- Rsqr_pow2; now apply sqrt_Rsqr).
    apply sqrt_lt_1; nra.
Qed.

(** [round] on a value that is an integer already. *)
Lemma py_round_IZR (z : Z) : py_round (IZR z) = z.
Proof.
  unfold py_round.
  assert (Hi : Int_part (IZR z) = z) by (symmetry; apply Int_part_spec; lra).
  rewrite Hi. destruct (Rlt_dec (IZR z - IZR z) (1 / 2)); [reflexivity | lra].
Qed.

(** [round] is 0 below one half. *)
Lemma py_round_small (x : R) : 0 <= x < 1 / 2 -> py_round x = 0%Z.
Proof.
  intros H. unfold py_round.
  assert (Hi : Int_part x = 0%Z) by (symmetry; apply Int_part_spec; simpl; lra).
  rewrite Hi. simpl. destruct (Rlt_dec (x - 0) (1 / 2)); [reflexivity | lra].
Qed.

(** [round] of a non-negative value is not negative. *)
Lemma py_round_nonneg (x : R) : 0 <= x -> (0 <= py_round x)%Z.
Proof.
  intros H. unfold py_round.
  assert (Hf : (0 <= Int_part x)%Z).
  { destruct (base_Int_part x) as [_ Hlow].
    apply Z.lt_succ_r. apply lt_IZR. rewrite succ_IZR. lra. }
  destruct (Rlt_dec (x - IZR (Int_part x)) (1 / 2)); [assumption |].
  destruct (Rlt_dec (1 / 2) (x - IZR (Int_part x))); [lia |].
  destruct (Z.even (Int_part x)); lia.
Qed.

(** ** Width and height *)

Lemma aspect_ratio_pos (w h : Z) : (0 < w)%Z -> (0 < h)%Z -> 0 < aspect_ratio w h.
Proof.
  intros Hw Hh. apply IZR_lt in Hw, Hh. unfold aspect_ratio.
  now apply Rdiv_lt_0_compat.
Qed.

Lemma sqrt_ratio_pos (r : R) : 0 < sqrt (r ^ 2 + 1).
Proof. apply sqrt_lt_R0. nra. Qed.

Lemma height_mm_pos (d : R) (w h : Z) : 0 < d -> 0 < height_mm d w h.
Proof.
  intros Hd. unfold height_mm.
  apply Rmult_lt_0_compat; [| lra].
  apply Rdiv_lt_0_compat; [assumption | apply sqrt_ratio_pos].
Qed.

Lemma width_mm_pos (d : R) (w h : Z) :
  0 < d -> (0 < w)%Z -> (0 < h)%Z -> 0 < width_mm d w h.
Proof.
  intros Hd Hw Hh. unfold width_mm.
  apply Rmult_lt_0_compat; [now apply aspect_ratio_pos | now apply height_mm_pos].
Qed.

Section ValidScreen.

Variable self : Screen.
Variables w h : Z.
Hypothesis Hvalid : valid self.
Hypothesis Hres : resolution self = (PyTuple [PyInt w; PyInt h]).

Lemma resolution_pos : (0 < w)%Z /\ (0 < h)%Z.
Proof.
  destruct (valid_resolution self Hvalid) as [w' [h' [Hr [Hw Hh]]]].
  rewrite Hres in Hr. injection Hr as -> ->. now split.
Qed.

Lemma width_valid : width self = Ok (width_mm (diagonal self) w h).
Proof.
  destruct resolution_pos as [Hw Hh]. apply IZR_lt in Hh.
  unfold width. rewrite Hres. cbn [tuple_get seq_items nth_error bind num_val].
  rewrite pydiv_Ok by lra. cbn [bind].
  rewrite pydiv_Ok by (apply Rgt_not_eq, sqrt_ratio_pos). reflexivity.
Qed.

Lemma height_valid : height self = Ok (height_mm (diagonal self) w h).
Proof.
  destruct resolution_pos as [Hw Hh]. apply IZR_lt in Hh.
  unfold height. rewrite Hres. cbn [tuple_get seq_items nth_error bind num_val].
  rewrite pydiv_Ok by lra. cbn [bind].
  rewrite pydiv_Ok by (apply Rgt_not_eq, sqrt_ratio_pos). reflexivity.
Qed.

Lemma width_valid_pos : 0 < width_mm (diagonal self) w h.
Proof.
  destruct resolution_pos. apply width_mm_pos; try assumption.
  apply (valid_diagonal self Hvalid).
Qed.

Lemma height_valid_pos : 0 < height_mm (diagonal self) w h.
Proof. apply height_mm_pos, (valid_diagonal self Hvalid). Qed.

Lemma size_valid :
  size self = Ok (width_mm (diagonal self) w h, height_mm (diagonal self) w h).
Proof. unfold size. now rewrite width_valid, height_valid. Qed.

Lemma ppi_exact_pos : 0 < ppi_exact (diagonal self) w h.
Proof.
  destruct resolution_pos as [Hw _]. apply IZR_lt in Hw.
  pose proof width_valid_pos. unfold ppi_exact.
  apply Rdiv_lt_0_compat; [assumption |]. lra.
Qed.

Lemma ppi_valid : ppi self = Ok (py_round (ppi_exact (diagonal self) w h)).
Proof.
  unfold ppi. rewrite width_valid, Hres.
  cbn [tuple_get seq_items nth_error bind num_val].
  pose proof width_valid_pos.
  rewrite pydiv_Ok by lra. reflexivity.
Qed.

Lemma ppi_valid_nonneg : (0 <= py_round (ppi_exact (diagonal self) w h))%Z.
Proof. apply py_round_nonneg. pose proof ppi_exact_pos. lra. Qed.

Lemma ppi_scaled_valid :
  ppi_scaled self =
  Ok (py_round (IZR (py_round (ppi_exact (diagonal self) w h)) / scaling self)).
Proof.
  unfold ppi_scaled. rewrite ppi_valid. cbn [bind].
  pose proof (valid_scaling self Hvalid).
  rewrite pydiv_Ok by lra. reflexivity.
Qed.

Lemma resolution_scaled_valid :
  resolution_scaled self =
  Ok (py_round (IZR w / scaling self), py_round (IZR h / scaling self)).
Proof.
  unfold resolution_scaled. rewrite Hres.
  cbn [tuple_get seq_items nth_error bind num_val].
  pose proof (valid_scaling self Hvalid).
  rewrite !pydiv_Ok by lra. reflexivity.
Qed.

Lemma pixel_size_valid :
  pixel_size self = pydiv 25.4 (IZR (py_round (ppi_exact (diagonal self) w h))).
Proof. unfold pixel_size. now rewrite ppi_valid. Qed.

Lemma fov_vertical_valid :
  fov_vertical self =
  Ok (degrees (2 * atan (height_mm (diagonal self) w h / 2 / distance self))).
Proof.
  unfold fov_vertical. rewrite height_valid. cbn [bind].
  pose proof (valid_distance self Hvalid).
  rewrite pydiv_Ok by lra. reflexivity.
Qed.

Lemma fov_horizontal_flat :
  curvature self = None ->
  fov_horizontal self =
  Ok (degrees (2 * atan (width_mm (diagonal self) w h / 2 / distance self))).
Proof.
  intros Hc. unfold fov_horizontal. rewrite Hc, width_valid. cbn [bind].
  pose proof (valid_distance self Hvalid).
  rewrite pydiv_Ok by lra. reflexivity.
Qed.

End ValidScreen.

(** The shape of a constructed object: two positive [int] pixel counts and
    the other four inputs as given. *)
Lemma Screen_init_inv (d : R) (r : pyobj) (dist : R) (c : option R) (s : R)
    (self : Screen) :
  Screen_init d r dist c s = Ok self ->
  exists w h : Z,
    r = (PyTuple [PyInt w; PyInt h]) /\ self = mkScreen d r dist c s /\ valid self.
Proof.
  intros H. apply Screen_init_Ok in H. destruct H as [-> Hv].
  destruct (valid_resolution _ Hv) as [w [h [Hr _]]]. simpl in Hr.
  exists w, h. auto.
Qed.

(** From [Screen_init ... = Ok self]: the two pixel counts [w] and [h], the
    shape [Hs] of [self], its validity [Hv] and its resolution [Hres]. *)
Ltac constructed H w h Hr Hs Hv Hres :=
  destruct (Screen_init_inv _ _ _ _ _ _ H) as [w [h [Hr [Hs Hv]]]];
  match type of Hs with
  | ?self = _ =>
      assert (Hres : resolution self = (PyTuple [PyInt w; PyInt h]))
        by (rewrite Hs; exact Hr)
  end.

(** C3.  On every constructed screen, with ratio = resolution[0] /
    resolution[1] as a real quotient, [height] is
    diagonal / sqrt(ratio^2 + 1) * 25.4 and [width] is ratio * height; both
    are strictly positive, and they are equal when the two pixel counts
    are. *)
Theorem width_height_formula :
  forall (d : R) (r : pyobj) (dist : R) (c : option R) (s : R) (self : Screen),
    Screen_init d r dist c s = Ok self ->
    exists (w h : Z) (wv hv : R),
      r = (PyTuple [PyInt w; PyInt h]) /\
      width self = Ok wv /\
      height self = Ok hv /\
      hv = d / sqrt ((IZR w / IZR h) ^ 2 + 1) * 25.4 /\
      wv = IZR w / IZR h * hv /\
      0 < wv /\ 0 < hv /\
      (w = h -> wv = hv).
Proof.
  intros d r dist c s self H.
  constructed H w h Hr Hs Hv Hres.
  assert (Hd : diagonal self = d) by (subst self; reflexivity).
  exists w, h, (width_mm d w h), (height_mm d w h).
  rewrite <- Hd at 1 2.
  repeat split.
  - assumption.
  - exact (width_valid self w h Hv Hres).
  - exact (height_valid self w h Hv Hres).
  - rewrite <- Hd. exact (width_valid_pos self w h Hv Hres).
  - rewrite <- Hd. exact (height_valid_pos self w h Hv).
  - intros ->. destruct (resolution_pos self h h Hv Hres) as [Hh _].
    apply IZR_lt in Hh. unfold width_mm, aspect_ratio. field. lra.
Qed.

Lemma width_height_formula_witness :
  exists (w h : Z) (wv hv : R),
    (PyTuple [PyInt 1920; PyInt 1080]) = (PyTuple [PyInt w; PyInt h]) /\
    width (mkScreen 27 (PyTuple [PyInt 1920; PyInt 1080]) 600 None 1) = Ok wv /\
    height (mkScreen 27 (PyTuple [PyInt 1920; PyInt 1080]) 600 None 1) = Ok hv /\
    hv = 27 / sqrt ((IZR w / IZR h) ^ 2 + 1) * 25.4 /\
    wv = IZR w / IZR h * hv /\
    0 < wv /\ 0 < hv /\
    (w = h -> wv = hv).
Proof.
  exact (width_height_formula 27 (PyTuple [PyInt 1920; PyInt 1080]) 600 None 1 _
           Screen_init_flat_monitor).
Defined.

(** C6.  On every constructed screen, flat or curved, [fov_vertical] is
    degrees(2 * atan(height / 2 / distance)); two screens constructed from
    inputs that differ in the curvature only have the same [fov_vertical]. *)
Theorem fov_vertical_formula :
  forall (d : R) (r : pyobj) (dist : R) (c : option R) (s : R) (self : Screen),
    Screen_init d r dist c s = Ok self ->
    (exists hv : R,
       height self = Ok hv /\
       fov_vertical self = Ok (degrees (2 * atan (hv / 2 / dist)))) /\
    (forall (c' : option R) (self' : Screen),
       Screen_init d r dist c' s = Ok self' ->
       fov_vertical self' = fov_vertical self).
Proof.
  intros d r dist c s self H.
  constructed H w h Hr Hs Hv Hres.
  split.
  - exists (height_mm (diagonal self) w h). split.
    + exact (height_valid self w h Hv Hres).
    + rewrite (fov_vertical_valid self w h Hv Hres). subst self. reflexivity.
  - intros c' self' H'. apply Screen_init_Ok in H'. destruct H' as [-> _].
    subst self. reflexivity.
Qed.

Example Screen_init_curved_monitor :
  Screen_init 34 (PyTuple [PyInt 3440; PyInt 1440]) 700 (Some 1000) 1 =
  Ok (mkScreen 34 (PyTuple [PyInt 3440; PyInt 1440]) 700 (Some 1000) 1).
Proof.
  unfold Screen_init. destruct (Rle_dec 34 0); [lra |]. simpl.
  destruct (Rle_dec 700 0); [lra |].
  destruct (Rlt_dec 1000 0); [lra |].
  destruct (Rle_dec 1 0); [lra | reflexivity].
Qed.

Lemma fov_vertical_formula_witness :
  (exists hv : R,
     height (mkScreen 34 (PyTuple [PyInt 3440; PyInt 1440]) 700 (Some 1000) 1) = Ok hv /\
     fov_vertical (mkScreen 34 (PyTuple [PyInt 3440; PyInt 1440]) 700 (Some 1000) 1) =
     Ok (degrees (2 * atan (hv / 2 / 700)))) /\
  (forall (c' : option R) (self' : Screen),
     Screen_init 34 (PyTuple [PyInt 3440; PyInt 1440]) 700 c' 1 = Ok self' ->
     fov_vertical self' =
     fov_vertical (mkScreen 34 (PyTuple [PyInt 3440; PyInt 1440]) 700 (Some 1000) 1)).
Proof.
  exact (fov_vertical_formula 34 (PyTuple [PyInt 3440; PyInt 1440]) 700 (Some 1000) 1 _
           Screen_init_curved_monitor).
Defined.

(** ** Scaling *)

(** C8.  On every constructed screen [ppi_scaled] is round(ppi / scaling)
    and each axis of [resolution_scaled] is round(axis / scaling), rounded on
    its own; with scaling equal to 1, [ppi_scaled] is [ppi] and
    [resolution_scaled] is the resolution. *)
Theorem scaling_formula :
  forall (d : R) (r : pyobj) (dist : R) (c : option R) (s : R) (self : Screen),
    Screen_init d r dist c s = Ok self ->
    exists (p w h : Z),
      r = (PyTuple [PyInt w; PyInt h]) /\
      ppi self = Ok p /\
      ppi_scaled self = Ok (py_round (IZR p / s)) /\
      resolution_scaled self = Ok (py_round (IZR w / s), py_round (IZR h / s)) /\
      (s = 1 -> ppi_scaled self = Ok p /\ resolution_scaled self = Ok (w, h)).
Proof.
  intros d r dist c s self H.
  constructed H w h Hr Hs Hv Hres.
  assert (Hsc : scaling self = s) by (subst self; reflexivity).
  exists (py_round (ppi_exact (diagonal self) w h)), w, h.
  rewrite (ppi_valid self w h Hv Hres), (ppi_scaled_valid self w h Hv Hres),
    (resolution_scaled_valid self w h Hv Hres), Hsc.
  repeat split; try assumption;
    match goal with E : s = 1 |- _ => rewrite E end;
    now rewrite ?Rdiv_1_r, ?py_round_IZR.
Qed.

Lemma scaling_formula_witness :
  exists (p w h : Z),
    (PyTuple [PyInt 1920; PyInt 1080]) = (PyTuple [PyInt w; PyInt h]) /\
    ppi (mkScreen 27 (PyTuple [PyInt 1920; PyInt 1080]) 600 None 1) = Ok p /\
    ppi_scaled (mkScreen 27 (PyTuple [PyInt 1920; PyInt 1080]) 600 None 1) =
    Ok (py_round (IZR p / 1)) /\
    resolution_scaled (mkScreen 27 (PyTuple [PyInt 1920; PyInt 1080]) 600 None 1) =
    Ok (py_round (IZR w / 1), py_round (IZR h / 1)) /\
    (1 = 1 ->
     ppi_scaled (mkScreen 27 (PyTuple [PyInt 1920; PyInt 1080]) 600 None 1) = Ok p /\
     resolution_scaled (mkScreen 27 (PyTuple [PyInt 1920; PyInt 1080]) 600 None 1) =
     Ok (w, h)).
Proof.
  exact (scaling_formula 27 (PyTuple [PyInt 1920; PyInt 1080]) 600 None 1 _
           Screen_init_flat_monitor).
Defined.

(** C10.  Two screens constructed from inputs that differ in the scaling
    only agree on [width], [height], [size], [ppi], [pixel_size],
    [fov_horizontal], [fov_vertical], [ppd] and [ppd_edge], as values and as
    errors: none of these reads the scaling. *)
Theorem scaling_independence :
  forall (d : R) (r : pyobj) (dist : R) (c : option R) (s1 s2 : R)
         (self1 self2 : Screen),
    Screen_init d r dist c s1 = Ok self1 ->
    Screen_init d r dist c s2 = Ok self2 ->
    width self1 = width self2 /\
    height self1 = height self2 /\
    size self1 = size self2 /\
    ppi self1 = ppi self2 /\
    pixel_size self1 = pixel_size self2 /\
    fov_horizontal self1 = fov_horizontal self2 /\
    fov_vertical self1 = fov_vertical self2 /\
    ppd self1 = ppd self2 /\
    ppd_edge self1 = ppd_edge self2.
Proof.
  intros d r dist c s1 s2 self1 self2 H1 H2.
  apply Screen_init_Ok in H1. destruct H1 as [-> _].
  apply Screen_init_Ok in H2. destruct H2 as [-> _].
  repeat split; reflexivity.
Qed.

Example Screen_init_scaled_monitor :
  Screen_init 27 (PyTuple [PyInt 1920; PyInt 1080]) 600 None 1.25 =
  Ok (mkScreen 27 (PyTuple [PyInt 1920; PyInt 1080]) 600 None 1.25).
Proof.
  unfold Screen_init. destruct (Rle_dec 27 0); [lra |]. simpl.
  destruct (Rle_dec 600 0); [lra |].
  destruct (Rle_dec 1.25 0); [lra | reflexivity].
Qed.

Lemma scaling_independence_witness :
  let self1 := mkScreen 27 (PyTuple [PyInt 1920; PyInt 1080]) 600 None 1 in
  let self2 := mkScreen 27 (PyTuple [PyInt 1920; PyInt 1080]) 600 None 1.25 in
  width self1 = width self2 /\
  height self1 = height self2 /\
  size self1 = size self2 /\
  ppi self1 = ppi self2 /\
  pixel_size self1 = pixel_size self2 /\
  fov_horizontal self1 = fov_horizontal self2 /\
  fov_vertical self1 = fov_vertical self2 /\
  ppd self1 = ppd self2 /\
  ppd_edge self1 = ppd_edge self2.
Proof.
  exact (scaling_independence 27 (PyTuple [PyInt 1920; PyInt 1080]) 600 None 1 1.25 _ _
           Screen_init_flat_monitor Screen_init_scaled_monitor).
Defined.

(** ** Horizontal field of view of a flat screen *)

Lemma div_between (n s lo hi : R) :
  0 < s -> lo * s < n -> n < hi * s -> lo < n / s < hi.
Proof.
  intros Hs Hlo Hhi.
  split; apply Rmult_lt_reg_r with s; try assumption;
    unfold Rdiv; rewrite Rmult_assoc, Rinv_l, Rmult_1_r; lra.
Qed.

(** The half-angle formula grows with its argument. *)
Lemma flat_angle_lt (q1 q2 : R) :
  q1 < q2 -> degrees (2 * atan q1) < degrees (2 * atan q2).
Proof.
  intros H. apply degrees_lt. apply atan_increasing in H. lra.
Qed.

Lemma quotient_decreasing (w d1 d2 : R) :
  0 < w -> 0 < d1 -> d1 < d2 -> w / 2 / d2 < w / 2 / d1.
Proof.
  intros Hw Hd1 Hd. unfold Rdiv.
  apply Rmult_lt_compat_l; [lra |].
  apply Rinv_0_lt_contravar; assumption.
Qed.

Lemma quotient_increasing (w1 w2 d : R) :
  0 < d -> w1 < w2 -> w1 / 2 / d < w2 / 2 / d.
Proof.
  intros Hd Hw. unfold Rdiv.
  apply Rmult_lt_compat_r; [now apply Rinv_0_lt_compat | lra].
Qed.

(** The 27-inch 1920x1080 panel of the tests: sqrt(ratio^2 + 1), the width
    and the height, to a few decimals. *)
Lemma flat_monitor_sqrt :
  2.039728 < sqrt (aspect_ratio 1920 1080 ^ 2 + 1) < 2.03973.
Proof.
  apply sqrt_between; unfold aspect_ratio; lra.
Qed.

Lemma flat_monitor_width : 597.726 < width_mm 27 1920 1080 < 597.727.
Proof.
  pose proof flat_monitor_sqrt as Hs. unfold width_mm, height_mm.
  set (s := sqrt (aspect_ratio 1920 1080 ^ 2 + 1)) in *.
  replace (aspect_ratio 1920 1080 * (27 / s * 25.4)) with (1219.2 / s)
    by (unfold aspect_ratio; replace 25.4 with (254 / 10) by lra;
        replace 1219.2 with (12192 / 10) by lra; field; lra).
  apply div_between; lra.
Qed.

Lemma flat_monitor_height : 336.220 < height_mm 27 1920 1080 < 336.222.
Proof.
  pose proof flat_monitor_sqrt as Hs. unfold height_mm.
  set (s := sqrt (aspect_ratio 1920 1080 ^ 2 + 1)) in *.
  replace (27 / s * 25.4) with (685.8 / s)
    by (replace 25.4 with (254 / 10) by lra;
        replace 685.8 with (6858 / 10) by lra; field; lra).
  apply div_between; lra.
Qed.

Lemma flat_monitor_valid (dist : R) :
  0 < dist -> valid (mkScreen 27 (PyTuple [PyInt 1920; PyInt 1080]) dist None 1).
Proof.
  intros Hd. constructor; simpl; try lra.
  - exists 1920%Z, 1080%Z. repeat split; lia.
  - discriminate.
Qed.

Lemma flat_monitor_fov (dist : R) :
  0 < dist ->
  fov_horizontal (mkScreen 27 (PyTuple [PyInt 1920; PyInt 1080]) dist None 1) =
  Ok (degrees (2 * atan (width_mm 27 1920 1080 / 2 / dist))).
Proof.
  intros Hd.
  exact (fov_horizontal_flat _ 1920 1080 (flat_monitor_valid dist Hd) eq_refl eq_refl).
Qed.

(** C7.  For flat screens: with diagonal, resolution and scaling fixed,
    [fov_horizontal] is strictly smaller at the larger distance; at one
    distance, the screen of the larger [width] has the strictly larger
    [fov_horizontal]; and the 27-inch 1920x1080 flat panel has
    [fov_horizontal] above 90 degrees at 50 mm and below 10 degrees at
    5000 mm. *)
Theorem fov_horizontal_flat_monotone :
  (forall (d : R) (r : pyobj) (s dist1 dist2 : R) (self1 self2 : Screen),
     Screen_init d r dist1 None s = Ok self1 ->
     Screen_init d r dist2 None s = Ok self2 ->
     dist1 < dist2 ->
     exists f1 f2 : R,
       fov_horizontal self1 = Ok f1 /\ fov_horizontal self2 = Ok f2 /\ f2 < f1) /\
  (forall (d1 d2 : R) (r1 r2 : pyobj) (dist s1 s2 : R) (self1 self2 : Screen)
          (w1 w2 : R),
     Screen_init d1 r1 dist None s1 = Ok self1 ->
     Screen_init d2 r2 dist None s2 = Ok self2 ->
     width self1 = Ok w1 -> width self2 = Ok w2 -> w1 < w2 ->
     exists f1 f2 : R,
       fov_horizontal self1 = Ok f1 /\ fov_horizontal self2 = Ok f2 /\ f1 < f2) /\
  (exists f : R,
     fov_horizontal (mkScreen 27 (PyTuple [PyInt 1920; PyInt 1080]) 50 None 1) = Ok f /\
     90 < f) /\
  (exists f : R,
     fov_horizontal (mkScreen 27 (PyTuple [PyInt 1920; PyInt 1080]) 5000 None 1) = Ok f /\
     f < 10).
Proof.
  split; [| split; [| split]].
  - intros d r s dist1 dist2 self1 self2 H1 H2 Hlt.
    destruct (Screen_init_inv _ _ _ _ _ _ H1) as [w [h [Hr [Hs1 Hv1]]]].
    destruct (Screen_init_inv _ _ _ _ _ _ H2) as [w' [h' [Hr' [Hs2 Hv2]]]].
    rewrite Hr in Hr'. injection Hr' as <- <-.
    assert (Hres1 : resolution self1 = (PyTuple [PyInt w; PyInt h])) by (subst self1; exact Hr).
    assert (Hres2 : resolution self2 = (PyTuple [PyInt w; PyInt h])) by (subst self2; exact Hr).
    assert (Hc1 : curvature self1 = None) by (subst self1; reflexivity).
    assert (Hc2 : curvature self2 = None) by (subst self2; reflexivity).
    pose proof (width_valid_pos self1 w h Hv1 Hres1) as Hw.
    pose proof (valid_distance self1 Hv1) as Hd1.
    rewrite (fov_horizontal_flat self1 w h Hv1 Hres1 Hc1).
    rewrite (fov_horizontal_flat self2 w h Hv2 Hres2 Hc2).
    subst self1 self2. simpl in *.
    eexists. eexists. split; [reflexivity | split; [reflexivity |]].
    apply flat_angle_lt. now apply quotient_decreasing.
  - intros d1 d2 r1 r2 dist s1 s2 self1 self2 w1 w2 H1 H2 Hw1 Hw2 Hlt.
    destruct (Screen_init_inv _ _ _ _ _ _ H1) as [a1 [b1 [Hr1 [Hs1 Hv1]]]].
    destruct (Screen_init_inv _ _ _ _ _ _ H2) as [a2 [b2 [Hr2 [Hs2 Hv2]]]].
    assert (Hres1 : resolution self1 = (PyTuple [PyInt a1; PyInt b1])) by (subst self1; exact Hr1).
    assert (Hres2 : resolution self2 = (PyTuple [PyInt a2; PyInt b2])) by (subst self2; exact Hr2).
    assert (Hc1 : curvature self1 = None) by (subst self1; reflexivity).
    assert (Hc2 : curvature self2 = None) by (subst self2; reflexivity).
    pose proof (valid_distance self1 Hv1) as Hd1.
    rewrite (fov_horizontal_flat self1 a1 b1 Hv1 Hres1 Hc1).
    rewrite (fov_horizontal_flat self2 a2 b2 Hv2 Hres2 Hc2).
    rewrite (width_valid self1 a1 b1 Hv1 Hres1) in Hw1. injection Hw1 as Hw1.
    rewrite (width_valid self2 a2 b2 Hv2 Hres2) in Hw2. injection Hw2 as Hw2.
    rewrite Hw1, Hw2.
    eexists. eexists. split; [reflexivity | split; [reflexivity |]].
    apply flat_angle_lt.
    replace (distance self2) with (distance self1) by (subst self1 self2; reflexivity).
    now apply quotient_increasing.
  - rewrite flat_monitor_fov by lra. eexists. split; [reflexivity |].
    pose proof flat_monitor_width as Hw.
    assert (Hq : 1 < width_mm 27 1920 1080 / 2 / 50) by lra.
    apply atan_increasing in Hq. rewrite atan_1 in Hq.
    apply Rle_lt_trans with (degrees (2 * (PI / 4))).
    + unfold degrees. right. field. apply PI_neq0.
    + apply degrees_lt. lra.
  - rewrite flat_monitor_fov by lra. eexists. split; [reflexivity |].
    pose proof flat_monitor_width as Hw.
    assert (Hq : 0 < width_mm 27 1920 1080 / 2 / 5000 < 0.06) by lra.
    pose proof (atan_lt_x _ (proj1 Hq)) as Ha.
    pose proof PI2_3_2 as Hpi.
    apply Rlt_le_trans with (degrees (PI / 18)).
    + apply degrees_lt. lra.
    + unfold degrees. right. field. apply PI_neq0.
Qed.

Lemma flat_monitor_init (dist : R) :
  0 < dist ->
  Screen_init 27 (PyTuple [PyInt 1920; PyInt 1080]) dist None 1 =
  Ok (mkScreen 27 (PyTuple [PyInt 1920; PyInt 1080]) dist None 1).
Proof.
  intros Hd. exact (valid_Screen_init _ (flat_monitor_valid dist Hd)).
Qed.

Lemma fov_horizontal_flat_monotone_witness :
  exists f1 f2 : R,
    fov_horizontal (mkScreen 27 (PyTuple [PyInt 1920; PyInt 1080]) 50 None 1) = Ok f1 /\
    fov_horizontal (mkScreen 27 (PyTuple [PyInt 1920; PyInt 1080]) 5000 None 1) = Ok f2 /\
    f2 < f1.
Proof.
  apply (proj1 fov_horizontal_flat_monotone 27 (PyTuple [PyInt 1920; PyInt 1080]) 1 50 5000);
    [apply flat_monitor_init; lra | apply flat_monitor_init; lra | lra].
Defined.

(** ** Pixel size and pixels per degree *)

Section ValidPixels.

Variable self : Screen.
Variables w h : Z.
Hypothesis Hvalid : valid self.
Hypothesis Hres : resolution self = (PyTuple [PyInt w; PyInt h]).

(** The rounded density of the screen. *)
Local Abbreviation p := (py_round (ppi_exact (diagonal self) w h)).

Lemma pixel_size_zero_ppi : p = 0%Z -> pixel_size self = Raise ZeroDivisionError.
Proof.
  intros Hp. rewrite (pixel_size_valid self w h Hvalid Hres).
  rewrite Hp. apply pydiv_zero.
Qed.

Lemma ppi_nonzero_pos : p <> 0%Z -> 0 < IZR p.
Proof.
  intros Hp. pose proof (ppi_valid_nonneg self w h Hvalid Hres) as Hn.
  apply IZR_lt. lia.
Qed.

Lemma pixel_size_nonzero_ppi :
  p <> 0%Z -> pixel_size self = Ok (25.4 / IZR p) /\ 0 < 25.4 / IZR p.
Proof.
  intros Hp. pose proof (ppi_nonzero_pos Hp) as Hpos.
  rewrite (pixel_size_valid self w h Hvalid Hres).
  split; [apply pydiv_Ok; lra | apply Rdiv_lt_0_compat; lra].
Qed.

(** The angle one pixel subtends at distance [e], in degrees, is positive. *)
Lemma pixel_angle_pos (e : R) :
  p <> 0%Z -> 0 < e -> 0 < degrees (atan (25.4 / IZR p / e)).
Proof.
  intros Hp He. destruct (pixel_size_nonzero_ppi Hp) as [_ Hps].
  apply degrees_pos, atan_pos. now apply Rdiv_lt_0_compat.
Qed.

Lemma ppd_zero_ppi : p = 0%Z -> ppd self = Raise ZeroDivisionError.
Proof.
  intros Hp. unfold ppd. now rewrite (pixel_size_zero_ppi Hp).
Qed.

Lemma ppd_nonzero_ppi :
  p <> 0%Z ->
  ppd self = Ok (1 / degrees (atan (25.4 / IZR p / distance self))).
Proof.
  intros Hp. unfold ppd. destruct (pixel_size_nonzero_ppi Hp) as [-> _].
  cbn [bind]. pose proof (valid_distance self Hvalid) as Hd.
  rewrite pydiv_Ok by lra. cbn [bind].
  apply pydiv_Ok, Rgt_not_eq. now apply pixel_angle_pos.
Qed.

(** Eye to edge of a flat screen. *)
Lemma flat_edge_distance :
  distance self <
  sqrt (distance self ^ 2 + (width_mm (diagonal self) w h / 2) ^ 2).
Proof.
  pose proof (valid_distance self Hvalid) as Hd.
  pose proof (width_valid_pos self w h Hvalid Hres) as Hw.
  rewrite <- (sqrt_pow2 (distance self)) at 1 by lra.
  apply sqrt_lt_1; nra.
Qed.

Lemma ppd_edge_flat_zero_ppi :
  curvature self = None -> p = 0%Z -> ppd_edge self = Raise ZeroDivisionError.
Proof.
  intros Hc Hp. unfold ppd_edge.
  rewrite Hc, (width_valid self w h Hvalid Hres). cbn [bind].
  rewrite py_sqrt_Ok by nra. cbn [bind].
  now rewrite (pixel_size_zero_ppi Hp).
Qed.

Lemma ppd_edge_flat_nonzero_ppi :
  curvature self = None -> p <> 0%Z ->
  ppd_edge self =
  Ok (1 / degrees (atan (25.4 / IZR p /
        sqrt (distance self ^ 2 + (width_mm (diagonal self) w h / 2) ^ 2)))).
Proof.
  intros Hc Hp. unfold ppd_edge.
  rewrite Hc, (width_valid self w h Hvalid Hres). cbn [bind].
  rewrite py_sqrt_Ok by nra. cbn [bind].
  destruct (pixel_size_nonzero_ppi Hp) as [-> _]. cbn [bind].
  pose proof (valid_distance self Hvalid) as Hd.
  pose proof flat_edge_distance as He.
  rewrite pydiv_Ok by lra. cbn [bind].
  apply pydiv_Ok, Rgt_not_eq. apply pixel_angle_pos; [assumption | lra].
Qed.

(** At the edge of a flat screen a pixel subtends the smaller angle. *)
Lemma flat_edge_angle_lt :
  p <> 0%Z ->
  degrees (atan (25.4 / IZR p /
     sqrt (distance self ^ 2 + (width_mm (diagonal self) w h / 2) ^ 2))) <
  degrees (atan (25.4 / IZR p / distance self)).
Proof.
  intros Hp. destruct (pixel_size_nonzero_ppi Hp) as [_ Hps].
  pose proof (valid_distance self Hvalid) as Hd.
  pose proof flat_edge_distance as He.
  apply degrees_lt, atan_increasing. unfold Rdiv at 1 3.
  apply Rmult_lt_compat_l; [assumption |].
  apply Rinv_0_lt_contravar; assumption.
Qed.

End ValidPixels.

Lemma py_round_up (z : Z) (x : R) :
  IZR z + 1 / 2 < x < IZR z + 1 -> py_round x = (z + 1)%Z.
Proof.
  intros H. unfold py_round.
  assert (Hi : Int_part x = z) by (symmetry; apply Int_part_spec; lra).
  rewrite Hi. destruct (Rlt_dec (x - IZR z) (1 / 2)); [lra |].
  destruct (Rlt_dec (1 / 2) (x - IZR z)); [reflexivity | lra].
Qed.

(** The test panel has 82 pixels per inch. *)
Lemma flat_monitor_ppi (dist : R) :
  0 < dist -> ppi (mkScreen 27 (PyTuple [PyInt 1920; PyInt 1080]) dist None 1) = Ok 82%Z.
Proof.
  intros Hd.
  rewrite (ppi_valid _ 1920 1080 (flat_monitor_valid dist Hd) eq_refl).
  f_equal. apply (py_round_up 81). cbn [diagonal]. unfold ppi_exact.
  pose proof flat_monitor_width as Hw.
  apply div_between; lra.
Qed.

Lemma one_pixel_wall_valid : valid one_pixel_wall.
Proof.
  constructor; simpl; try lra.
  - exists 1%Z, 1%Z. repeat split; lia.
  - discriminate.
Qed.

Lemma one_pixel_wall_init :
  Screen_init 100 (PyTuple [PyInt 1; PyInt 1]) 600 None 1 = Ok one_pixel_wall.
Proof. exact (valid_Screen_init _ one_pixel_wall_valid). Qed.

Lemma one_pixel_wall_width : 1270 < width_mm 100 1 1 < 2540.
Proof.
  unfold width_mm, height_mm, aspect_ratio.
  replace (1 / 1) with 1 by lra.
  assert (Hs : 1 < sqrt (1 ^ 2 + 1) < 2) by (apply sqrt_between; lra).
  set (s := sqrt (1 ^ 2 + 1)) in *.
  replace (1 * (100 / s * 25.4)) with (2540 / s)
    by (replace 25.4 with (254 / 10) by lra; field; lra).
  apply div_between; lra.
Qed.

Lemma one_pixel_wall_ppi_exact : py_round (ppi_exact 100 1 1) = 0%Z.
Proof.
  apply py_round_small. unfold ppi_exact.
  pose proof one_pixel_wall_width as Hw.
  assert (Hq : 0 < 1 / (width_mm 100 1 1 / 25.4) < 1 / 2)
    by (apply div_between; lra).
  lra.
Qed.

Lemma one_pixel_wall_ppi : ppi one_pixel_wall = Ok 0%Z.
Proof.
  rewrite (ppi_valid _ 1 1 one_pixel_wall_valid eq_refl).
  f_equal. exact one_pixel_wall_ppi_exact.
Qed.

Lemma one_pixel_wall_pixel_size : pixel_size one_pixel_wall = Raise ZeroDivisionError.
Proof.
  exact (pixel_size_zero_ppi _ 1 1 one_pixel_wall_valid eq_refl one_pixel_wall_ppi_exact).
Qed.

Lemma one_pixel_wall_ppd : ppd one_pixel_wall = Raise ZeroDivisionError.
Proof.
  exact (ppd_zero_ppi _ 1 1 one_pixel_wall_valid eq_refl one_pixel_wall_ppi_exact).
Qed.

Lemma one_pixel_wall_ppd_edge : ppd_edge one_pixel_wall = Raise ZeroDivisionError.
Proof.
  exact (ppd_edge_flat_zero_ppi _ 1 1 one_pixel_wall_valid eq_refl eq_refl
           one_pixel_wall_ppi_exact).
Qed.

(** C9, as stated, fails: the 100-inch flat panel of 1x1 pixels is accepted
    by the constructor, its [ppi] rounds to 0, and both [ppd] and [ppd_edge]
    raise [ZeroDivisionError] in [pixel_size]; there are no two values of
    which one exceeds the other. *)
Lemma ppd_edge_flat_gt_ppd_counterexample :
  Screen_init 100 (PyTuple [PyInt 1; PyInt 1]) 600 None 1 = Ok one_pixel_wall /\
  ppd one_pixel_wall = Raise ZeroDivisionError /\
  ppd_edge one_pixel_wall = Raise ZeroDivisionError /\
  ~ (exists e c : R,
       ppd_edge one_pixel_wall = Ok e /\ ppd one_pixel_wall = Ok c /\ c < e).
Proof.
  split; [exact one_pixel_wall_init |].
  split; [exact one_pixel_wall_ppd |].
  split; [exact one_pixel_wall_ppd_edge |].
  intros [e [c [He _]]]. rewrite one_pixel_wall_ppd_edge in He. discriminate.
Qed.

(** C9, amended.  On every constructed flat screen whose [ppi] is not 0,
    [ppd_edge] and [ppd] both return, and [ppd_edge] is strictly greater
    than [ppd]: the edge is farther from the eye than the centre, so a pixel
    subtends the smaller angle there. *)
Theorem ppd_edge_flat_gt_ppd :
  forall (d : R) (r : pyobj) (dist s : R) (self : Screen) (p : Z),
    Screen_init d r dist None s = Ok self ->
    ppi self = Ok p ->
    p <> 0%Z ->
    exists e c : R,
      ppd_edge self = Ok e /\ ppd self = Ok c /\ c < e.
Proof.
  intros d r dist s self p H Hppi Hp.
  constructed H w h Hr Hs Hv Hres.
  assert (Hc : curvature self = None) by (subst self; reflexivity).
  rewrite (ppi_valid self w h Hv Hres) in Hppi. injection Hppi as Hppi.
  rewrite <- Hppi in Hp.
  rewrite (ppd_edge_flat_nonzero_ppi self w h Hv Hres Hc Hp).
  rewrite (ppd_nonzero_ppi self w h Hv Hres Hp).
  eexists. eexists. split; [reflexivity | split; [reflexivity |]].
  pose proof (flat_edge_angle_lt self w h Hv Hres Hp) as Hlt.
  pose proof (flat_edge_distance self w h Hv Hres) as He.
  pose proof (valid_distance self Hv) as Hd.
  assert (Hpos : 0 < distance self) by assumption.
  pose proof (pixel_angle_pos self w h Hv Hres _ Hp
                (Rlt_trans _ _ _ Hpos He)) as Ha.
  unfold Rdiv at 1 4. rewrite !Rmult_1_l.
  apply Rinv_0_lt_contravar; assumption.
Qed.

Lemma ppd_edge_flat_gt_ppd_witness :
  exists e c : R,
    ppd_edge (mkScreen 27 (PyTuple [PyInt 1920; PyInt 1080]) 600 None 1) = Ok e /\
    ppd (mkScreen 27 (PyTuple [PyInt 1920; PyInt 1080]) 600 None 1) = Ok c /\
    c < e.
Proof.
  apply (ppd_edge_flat_gt_ppd 27 (PyTuple [PyInt 1920; PyInt 1080]) 600 1 _ 82%Z);
    [apply flat_monitor_init; lra | apply flat_monitor_ppi; lra | discriminate].
Defined.

(** ** The concrete scenario: 27 inches, 1920x1080, 600 mm, flat *)

(** C4, as stated, fails: the width of the scenario is more than 0.94 mm
    below 598.67 mm, outside both tolerances the specification names
    (0.01 and 0.5). *)
Lemma flat_monitor_width_counterexample :
  Screen_init 27 (PyTuple [PyInt 1920; PyInt 1080]) 600 None 1 = Ok flat_monitor /\
  width flat_monitor = Ok (width_mm 27 1920 1080) /\
  0.94 < 598.67 - width_mm 27 1920 1080.
Proof.
  split; [apply flat_monitor_init; lra |].
  split.
  - exact (width_valid _ 1920 1080 (flat_monitor_valid 600 ltac:(lra)) eq_refl).
  - pose proof flat_monitor_width. lra.
Qed.

(** C4, amended.  In the scenario the computed width is 597.73 mm and the
    computed height 336.22 mm, each to within 0.01 mm; the width is within
    0.5 mm of 598.0 mm and the height within 0.5 mm of 336.4 mm. *)
Theorem flat_monitor_width_height :
  Screen_init 27 (PyTuple [PyInt 1920; PyInt 1080]) 600 None 1 = Ok flat_monitor /\
  exists wv hv : R,
    width flat_monitor = Ok wv /\
    height flat_monitor = Ok hv /\
    Rabs (wv - 597.73) < 0.01 /\
    Rabs (hv - 336.22) < 0.01 /\
    Rabs (wv - 598.0) < 0.5 /\
    Rabs (hv - 336.4) < 0.5.
Proof.
  split; [apply flat_monitor_init; lra |].
  exists (width_mm 27 1920 1080), (height_mm 27 1920 1080).
  pose proof flat_monitor_width. pose proof flat_monitor_height.
  split; [exact (width_valid _ 1920 1080 (flat_monitor_valid 600 ltac:(lra)) eq_refl) |].
  split; [exact (height_valid _ 1920 1080 (flat_monitor_valid 600 ltac:(lra)) eq_refl) |].
  repeat split; apply Rabs_def1; lra.
Qed.

(** ** Curved screens *)

Lemma normalize_angle_range (q : R) :
  0 <= normalize_angle (degrees (2 * atan q)) < 360.
Proof.
  pose proof (degrees_2atan_bound q) as H. unfold normalize_angle.
  destruct (Rge_dec (degrees (2 * atan q)) 0); lra.
Qed.

Lemma sum_squares_zero (a b : R) : a ^ 2 + b ^ 2 = 0 <-> a = 0 /\ b = 0.
Proof.
  split.
  - intros H. split; nra.
  - intros [-> ->]. ring.
Qed.

Lemma sqrt_sum_squares_zero (a b : R) : sqrt (a ^ 2 + b ^ 2) = 0 <-> a = 0 /\ b = 0.
Proof.
  rewrite <- sum_squares_zero. split.
  - intros H. apply sqrt_eq_0; [nra | assumption].
  - intros ->. apply sqrt_0.
Qed.

Section ValidCurved.

Variable self : Screen.
Variables w h : Z.
Variable c : R.
Hypothesis Hvalid : valid self.
Hypothesis Hres : resolution self = (PyTuple [PyInt w; PyInt h]).
Hypothesis Hcurv : curvature self = Some c.

Local Abbreviation wv := (width_mm (diagonal self) w h).
Local Abbreviation p := (py_round (ppi_exact (diagonal self) w h)).
Local Abbreviation edge := (arc_edge_distance wv c (distance self)).

Lemma fov_horizontal_zero_curvature :
  c = 0 -> fov_horizontal self = Raise ZeroDivisionError.
Proof.
  intros Hc. unfold fov_horizontal.
  rewrite Hcurv, (width_valid self w h Hvalid Hres). cbn [bind].
  rewrite Hc, pydiv_zero. reflexivity.
Qed.

Lemma ppd_edge_zero_curvature :
  c = 0 -> ppd_edge self = Raise ZeroDivisionError.
Proof.
  intros Hc. unfold ppd_edge.
  rewrite Hcurv, (width_valid self w h Hvalid Hres). cbn [bind].
  rewrite Hc, pydiv_zero. reflexivity.
Qed.

Lemma fov_horizontal_curved :
  c <> 0 -> arc_end_dist wv c (distance self) <> 0 ->
  fov_horizontal self =
  Ok (normalize_angle
        (degrees (2 * atan (arc_width wv c / 2 / arc_end_dist wv c (distance self))))).
Proof.
  intros Hc He. unfold fov_horizontal.
  rewrite Hcurv, (width_valid self w h Hvalid Hres). cbn [bind].
  rewrite (pydiv_Ok _ c Hc). cbn [bind].
  fold (arc_angle wv c). fold (arc_width wv c). fold (arc_depth wv c).
  fold (arc_end_dist wv c (distance self)).
  rewrite (pydiv_Ok _ _ He). reflexivity.
Qed.

Lemma fov_horizontal_curved_zero_end :
  c <> 0 -> arc_end_dist wv c (distance self) = 0 ->
  fov_horizontal self = Raise ZeroDivisionError.
Proof.
  intros Hc He. unfold fov_horizontal.
  rewrite Hcurv, (width_valid self w h Hvalid Hres). cbn [bind].
  rewrite (pydiv_Ok _ c Hc). cbn [bind].
  fold (arc_angle wv c). fold (arc_width wv c). fold (arc_depth wv c).
  fold (arc_end_dist wv c (distance self)).
  rewrite He, pydiv_zero. reflexivity.
Qed.

Lemma ppd_edge_curved_steps :
  c <> 0 ->
  ppd_edge self =
  (ps <- pixel_size self ;;
   q <- pydiv ps edge ;;
   pydiv 1 (degrees (atan q))).
Proof.
  intros Hc. unfold ppd_edge.
  rewrite Hcurv, (width_valid self w h Hvalid Hres). cbn [bind].
  rewrite (pydiv_Ok _ c Hc). cbn [bind].
  fold (arc_angle wv c). fold (arc_width wv c). fold (arc_depth wv c).
  fold (arc_end_dist wv c (distance self)).
  rewrite py_sqrt_Ok by nra. reflexivity.
Qed.

Lemma arc_edge_distance_nonneg : 0 <= edge.
Proof. apply sqrt_pos. Qed.

Lemma arc_edge_distance_zero :
  edge = 0 <->
  arc_end_dist wv c (distance self) = 0 /\ arc_width wv c = 0.
Proof.
  unfold arc_edge_distance. rewrite sqrt_sum_squares_zero.
  split; intros [H1 H2]; split; lra.
Qed.

Lemma ppd_edge_curved_Ok :
  c <> 0 -> p <> 0%Z -> edge <> 0 ->
  ppd_edge self = Ok (1 / degrees (atan (25.4 / IZR p / edge))).
Proof.
  intros Hc Hp He. rewrite (ppd_edge_curved_steps Hc).
  destruct (pixel_size_nonzero_ppi self w h Hvalid Hres Hp) as [-> _].
  cbn [bind]. rewrite (pydiv_Ok _ _ He). cbn [bind].
  apply pydiv_Ok, Rgt_not_eq.
  pose proof arc_edge_distance_nonneg.
  apply (pixel_angle_pos self w h Hvalid Hres); [assumption | lra].
Qed.

Lemma ppd_edge_curved_Raise :
  c <> 0 -> p = 0%Z \/ edge = 0 ->
  ppd_edge self = Raise ZeroDivisionError.
Proof.
  intros Hc H. rewrite (ppd_edge_curved_steps Hc).
  destruct (Z.eq_dec p 0) as [Hp | Hp].
  - now rewrite (pixel_size_zero_ppi self w h Hvalid Hres Hp).
  - destruct H as [H | H]; [contradiction |].
    destruct (pixel_size_nonzero_ppi self w h Hvalid Hres Hp) as [-> _].
    cbn [bind]. now rewrite H, pydiv_zero.
Qed.

End ValidCurved.

(** The curved panel of the tests: its arc is less than 1040 mm long, bows
    less than 500 mm towards the eye, and [fov_horizontal] lies strictly
    between 0 and 180 degrees (test_fov_horizontal_curved). *)
Lemma curved_monitor_valid : valid curved_monitor.
Proof.
  constructor; simpl; try lra.
  - exists 3440%Z, 1440%Z. repeat split; lia.
  - intros c Hc. injection Hc as <-. lra.
Qed.

Lemma curved_monitor_width : 0 < width_mm 34 3440 1440 < 1040.
Proof.
  unfold width_mm, height_mm.
  assert (Hs : 2 < sqrt (aspect_ratio 3440 1440 ^ 2 + 1) < 3)
    by (apply sqrt_between; unfold aspect_ratio; lra).
  set (s := sqrt (aspect_ratio 3440 1440 ^ 2 + 1)) in *.
  replace (aspect_ratio 3440 1440 * (34 / s * 25.4))
    with (3440 / 1440 * 34 * (254 / 10) / s)
    by (unfold aspect_ratio; replace 25.4 with (254 / 10) by lra; field; lra).
  apply div_between; lra.
Qed.

Example curved_monitor_fov :
  exists v : R, fov_horizontal curved_monitor = Ok v /\ 0 < v < 180.
Proof.
  pose proof curved_monitor_width as Hw. pose proof PI2_3_2 as Hpi.
  set (x := arc_angle (width_mm 34 3440 1440) 1000 / 2).
  assert (Hx : 0 < x < 1) by (unfold x, arc_angle; lra).
  assert (Hsin : 0 < sin x) by (apply sin_gt_0; lra).
  assert (Hcos : 1 / 2 < cos x).
  { rewrite <- cos_PI3. apply cos_decreasing_1; lra. }
  assert (Hwd : 0 < arc_width (width_mm 34 3440 1440) 1000).
  { unfold arc_width. fold x. nra. }
  assert (He : 200 < arc_end_dist (width_mm 34 3440 1440) 1000 700).
  { unfold arc_end_dist, arc_depth. fold x. lra. }
  rewrite (fov_horizontal_curved _ 3440 1440 1000 curved_monitor_valid eq_refl eq_refl);
    cbn [diagonal distance curved_monitor]; [| lra | lra].
  eexists. split; [reflexivity |].
  set (q := arc_width (width_mm 34 3440 1440) 1000 / 2 /
            arc_end_dist (width_mm 34 3440 1440) 1000 700).
  assert (Hq : 0 < q) by (unfold q; apply Rdiv_lt_0_compat; lra).
  pose proof (degrees_2atan_bound q) as Hb.
  assert (Ha : 0 < degrees (2 * atan q)).
  { apply degrees_pos. pose proof (atan_pos q Hq). lra. }
  unfold normalize_angle. destruct (Rge_dec (degrees (2 * atan q)) 0); lra.
Qed.

(** ** Which accessors can raise *)

(** C2, as stated, fails for a screen whose curvature is absent: the flat
    100-inch 1x1 panel is accepted by the constructor, its [ppi] is 0, and
    [pixel_size], [ppd] and [ppd_edge] raise [ZeroDivisionError]. *)
Lemma accessors_raise_counterexample :
  Screen_init 100 (PyTuple [PyInt 1; PyInt 1]) 600 None 1 = Ok one_pixel_wall /\
  curvature one_pixel_wall = None /\
  ppi one_pixel_wall = Ok 0%Z /\
  pixel_size one_pixel_wall = Raise ZeroDivisionError /\
  ppd one_pixel_wall = Raise ZeroDivisionError /\
  ppd_edge one_pixel_wall = Raise ZeroDivisionError.
Proof.
  split; [exact one_pixel_wall_init |].
  split; [reflexivity |].
  split; [exact one_pixel_wall_ppi |].
  split; [exact one_pixel_wall_pixel_size |].
  split; [exact one_pixel_wall_ppd | exact one_pixel_wall_ppd_edge].
Qed.

(** C2, amended.  Accessors of a constructed screen can raise, whatever the
    curvature: whenever [ppi] returns 0, [pixel_size] and [ppd] raise
    [ZeroDivisionError] and [ppd_edge] returns no value.  With curvature 0,
    once [width] has returned, [fov_horizontal] and [ppd_edge] raise
    [ZeroDivisionError] in arc_angle = width / curvature: an exception, not
    an infinite value.  Nothing is said of which accessors never raise. *)
Theorem accessors_raise :
  forall (d : R) (r : pyobj) (dist : R) (c : option R) (s : R) (self : Screen),
    Screen_init d r dist c s = Ok self ->
    (ppi self = Ok 0%Z ->
       pixel_size self = Raise ZeroDivisionError /\
       ppd self = Raise ZeroDivisionError /\
       ~ (exists v : R, ppd_edge self = Ok v)) /\
    (c = Some 0 ->
       forall wv : R, width self = Ok wv ->
         fov_horizontal self = Raise ZeroDivisionError /\
         ppd_edge self = Raise ZeroDivisionError).
Proof.
  intros d r dist c s self H. split.
  - intros Hppi. unfold pixel_size, ppd, pixel_size. rewrite Hppi. cbn [bind].
    rewrite pydiv_zero. cbn [bind]. repeat split.
    intros [v Hv]. unfold ppd_edge, pixel_size in Hv. rewrite Hppi in Hv.
    cbn [bind] in Hv. rewrite pydiv_zero in Hv.
    destruct (curvature self) as [x |].
    + destruct (width self) as [wv | e]; cbn [bind] in Hv; [| discriminate].
      destruct (pydiv wv x) as [a | e]; cbn [bind] in Hv; [| discriminate].
      destruct (py_sqrt _) as [b | e]; cbn [bind] in Hv; discriminate.
    + destruct (width self) as [wv | e]; cbn [bind] in Hv; [| discriminate].
      destruct (py_sqrt _) as [b | e]; cbn [bind] in Hv; discriminate.
  - intros Hc wv Hw.
    assert (Hcurv : curvature self = Some 0).
    { apply Screen_init_Ok in H. destruct H as [-> _]. exact Hc. }
    unfold fov_horizontal, ppd_edge. rewrite Hcurv, Hw. cbn [bind].
    rewrite pydiv_zero. split; reflexivity.
Qed.

Lemma accessors_raise_witness :
  (ppi one_pixel_wall = Ok 0%Z ->
     pixel_size one_pixel_wall = Raise ZeroDivisionError /\
     ppd one_pixel_wall = Raise ZeroDivisionError /\
     ~ (exists v : R, ppd_edge one_pixel_wall = Ok v)) /\
  (@None R = Some 0 ->
     forall wv : R, width one_pixel_wall = Ok wv ->
       fov_horizontal one_pixel_wall = Raise ZeroDivisionError /\
       ppd_edge one_pixel_wall = Raise ZeroDivisionError).
Proof.
  exact (accessors_raise 100 (PyTuple [PyInt 1; PyInt 1]) 600 None 1 _
           one_pixel_wall_init).
Defined.

(** The screen of curvature 0 of the tests: the constructor accepts it, and
    [fov_horizontal] and [ppd_edge] divide its width by 0. *)
Example zero_curvature_raises :
  fov_horizontal (mkScreen 27 (PyTuple [PyInt 1920; PyInt 1080]) 600 (Some 0) 1) =
  Raise ZeroDivisionError /\
  ppd_edge (mkScreen 27 (PyTuple [PyInt 1920; PyInt 1080]) 600 (Some 0) 1) =
  Raise ZeroDivisionError.
Proof.
  assert (Hv : valid (mkScreen 27 (PyTuple [PyInt 1920; PyInt 1080]) 600 (Some 0) 1)).
  { pose proof Screen_init_zero_curvature as H. apply Screen_init_Ok in H.
    now destruct H. }
  split.
  - exact (fov_horizontal_zero_curvature _ 1920 1080 0 Hv eq_refl eq_refl eq_refl).
  - exact (ppd_edge_zero_curvature _ 1920 1080 0 Hv eq_refl eq_refl eq_refl).
Qed.

(** * Further properties of the module *)

(** ** The order of the checks in [__init__] *)

Lemma error_message_inj (f g : field) : error_message f = error_message g -> f = g.
Proof. destruct f, g; intros H; (reflexivity || discriminate H). Qed.

(** The outcome of [__init__], check by check. *)
Lemma Screen_init_cases (d : R) (r : pyobj) (dist : R) (c : option R) (s : R) :
  (exists f,
     Screen_init d r dist c s = Raise (ValueError (error_message f)) /\
     rule_violated f d r dist c s /\
     forall g, (field_index g < field_index f)%nat -> ~ rule_violated g d r dist c s) \/
  (Screen_init d r dist c s = Ok (mkScreen d r dist c s) /\
   forall g, ~ rule_violated g d r dist c s).
Proof.
  assert (Hnd : ~ d <= 0 -> ~ rule_violated Field_diagonal d r dist c s)
    by (intros H; exact H).
  unfold Screen_init.
  destruct (Rle_dec d 0) as [Hd | Hd].
  { left. exists Field_diagonal. repeat split; [assumption |].
    intros g Hg. destruct g; simpl in Hg; lia. }
  destruct (isinstance_tuple r && Nat.eqb (len r) 2 &&
            forallb positive_int (seq_items r)) eqn:Hr; cbn [negb].
  2:{ left. exists Field_resolution. apply resolution_check_false in Hr.
      repeat split; [assumption |].
      intros g Hg. destruct g; simpl in Hg; try lia. exact Hd. }
  assert (Hnr : ~ rule_violated Field_resolution d r dist c s).
  { intros Hv. apply resolution_check_false in Hv. congruence. }
  destruct (Rle_dec dist 0) as [Hdist | Hdist].
  { left. exists Field_distance. repeat split; [assumption |].
    intros g Hg. destruct g; simpl in Hg; try lia; assumption. }
  assert (Hcd : {x | c = Some x /\ x < 0} + {~ rule_violated Field_curvature d r dist c s}).
  { destruct c as [x |].
    - destruct (Rlt_dec x 0) as [Hx | Hx].
      + left. now exists x.
      + right. intros [y [Hy Hlt]]. injection Hy as <-. contradiction.
    - right. intros [y [Hy _]]. discriminate. }
  destruct Hcd as [[x [-> Hx]] | Hnc].
  { destruct (Rlt_dec x 0); [| contradiction].
    left. exists Field_curvature. repeat split; [now exists x |].
    intros g Hg. destruct g; simpl in Hg; try lia; assumption. }
  assert (Hc : match c with
               | Some x => if Rlt_dec x 0 then true else false
               | None => false
               end = false).
  { destruct c as [x |]; [| reflexivity].
    destruct (Rlt_dec x 0); [| reflexivity]. exfalso. apply Hnc. now exists x. }
  rewrite Hc.
  destruct (Rle_dec s 0) as [Hs | Hs].
  { left. exists Field_scaling. repeat split; [assumption |].
    intros g Hg. destruct g; simpl in Hg; try lia; assumption. }
  right. split; [reflexivity |]. intros g. destruct g; assumption.
Qed.

(** X1.  [__init__] reports the first violated rule in the order diagonal,
    resolution, distance, curvature, scaling: it raises the [ValueError] of
    field [f] exactly when the rule of [f] is violated and no rule checked
    before it is. *)
Theorem Screen_init_first_violated :
  forall (d : R) (r : pyobj) (dist : R) (c : option R) (s : R) (f : field),
    Screen_init d r dist c s = Raise (ValueError (error_message f)) <->
    (rule_violated f d r dist c s /\
     forall g, (field_index g < field_index f)%nat -> ~ rule_violated g d r dist c s).
Proof.
  intros d r dist c s f.
  destruct (Screen_init_cases d r dist c s) as [[f' [He [Hv Hfirst]]] | [He Hnone]].
  - split.
    + intros H. rewrite He in H. injection H as H.
      apply error_message_inj in H. subst f'. now split.
    + intros [Hvf Hff].
      assert (f = f'); [| now subst f'].
      destruct (Nat.lt_trichotomy (field_index f) (field_index f')) as [Hlt | [Heq | Hgt]].
      * now destruct (Hfirst f Hlt).
      * destruct f, f'; simpl in Heq; (reflexivity || discriminate Heq).
      * now destruct (Hff f' Hgt).
  - split.
    + intros H. rewrite He in H. discriminate.
    + intros [Hvf _]. now destruct (Hnone f).
Qed.

(** Two rules violated at once: the diagonal is the one reported. *)
Example Screen_init_two_violations :
  Screen_init (-27) (PyTuple [PyInt 1920; PyInt 1080]) 600 None 0 =
  Raise (ValueError (error_message Field_diagonal)).
Proof.
  unfold Screen_init. destruct (Rle_dec (-27) 0); [reflexivity | lra].
Qed.

(** ** The size and the diagonal *)

Lemma size_pythagoras (d : R) (w h : Z) :
  width_mm d w h ^ 2 + height_mm d w h ^ 2 = (d * 25.4) ^ 2.
Proof.
  unfold width_mm, height_mm.
  pose proof (sqrt_ratio_pos (aspect_ratio w h)) as Hs.
  assert (Hsq : sqrt (aspect_ratio w h ^ 2 + 1) ^ 2 = aspect_ratio w h ^ 2 + 1).
  { rewrite <- Rsqr_pow2. apply Rsqr_sqrt. nra. }
  set (s := sqrt (aspect_ratio w h ^ 2 + 1)) in *.
  set (a := aspect_ratio w h) in *.
  replace ((a * (d / s * 25.4)) ^ 2 + (d / s * 25.4) ^ 2)
    with ((a ^ 2 + 1) * ((d * 25.4) ^ 2 / s ^ 2))
    by (unfold Rdiv; rewrite !Rpow_mult_distr, pow_inv; ring).
  rewrite <- Hsq. unfold Rdiv.
  rewrite (Rmult_comm ((d * 25.4) ^ 2)), <- Rmult_assoc, Rinv_r, Rmult_1_l;
    [reflexivity | nra].
Qed.

Lemma size_aspect (d : R) (w h : Z) :
  (0 < h)%Z -> width_mm d w h * IZR h = height_mm d w h * IZR w.
Proof.
  intros Hh. apply IZR_lt in Hh. unfold width_mm, aspect_ratio. field. lra.
Qed.

(** X3.  On every constructed screen the computed size is that of a
    rectangle with the given diagonal and the pixel counts' aspect:
    width^2 + height^2 = (25.4 * diagonal)^2 and
    width * resolution[1] = height * resolution[0]. *)
Theorem size_matches_diagonal :
  forall (d : R) (r : pyobj) (dist : R) (c : option R) (s : R) (self : Screen),
    Screen_init d r dist c s = Ok self ->
    exists (w h : Z) (wv hv : R),
      r = (PyTuple [PyInt w; PyInt h]) /\
      size self = Ok (wv, hv) /\
      wv ^ 2 + hv ^ 2 = (d * 25.4) ^ 2 /\
      wv * IZR h = hv * IZR w.
Proof.
  intros d r dist c s self H.
  constructed H w h Hr Hs Hv Hres.
  destruct (resolution_pos self w h Hv Hres) as [_ Hh].
  assert (Hd : diagonal self = d) by (subst self; reflexivity).
  exists w, h, (width_mm d w h), (height_mm d w h).
  rewrite <- Hd at 1 2.
  repeat split; [assumption | exact (size_valid self w h Hv Hres) | |].
  - apply size_pythagoras.
  - now apply size_aspect.
Qed.

Lemma size_matches_diagonal_witness :
  exists (w h : Z) (wv hv : R),
    (PyTuple [PyInt 1920; PyInt 1080]) = (PyTuple [PyInt w; PyInt h]) /\
    size (mkScreen 27 (PyTuple [PyInt 1920; PyInt 1080]) 600 None 1) = Ok (wv, hv) /\
    wv ^ 2 + hv ^ 2 = (27 * 25.4) ^ 2 /\
    wv * IZR h = hv * IZR w.
Proof.
  exact (size_matches_diagonal 27 (PyTuple [PyInt 1920; PyInt 1080]) 600 None 1 _
           Screen_init_flat_monitor).
Defined.

Lemma aspect_ratio_scale (k w h : Z) :
  (0 < k)%Z -> (0 < h)%Z -> aspect_ratio (k * w) (k * h) = aspect_ratio w h.
Proof.
  intros Hk Hh. apply IZR_lt in Hk, Hh. unfold aspect_ratio.
  rewrite !mult_IZR. field. lra.
Qed.

Lemma height_mm_linear (t d : R) (w h : Z) :
  height_mm (t * d) w h = t * height_mm d w h.
Proof.
  unfold height_mm. pose proof (sqrt_ratio_pos (aspect_ratio w h)).
  unfold Rdiv. ring.
Qed.

(** X4.  The size depends on the resolution through its aspect ratio only
    and is linear in the diagonal: the screen of resolution (k*w, k*h) and
    diagonal t*d is t times as wide and as high as the screen of resolution
    (w, h) and diagonal d. *)
Theorem size_scales :
  forall (d t dist1 dist2 s1 s2 : R) (c1 c2 : option R) (k w h : Z)
         (self1 self2 : Screen),
    (0 < k)%Z ->
    Screen_init d (PyTuple [PyInt w; PyInt h]) dist1 c1 s1 = Ok self1 ->
    Screen_init (t * d) (PyTuple [PyInt (k * w); PyInt (k * h)]) dist2 c2 s2 = Ok self2 ->
    exists wv hv : R,
      size self1 = Ok (wv, hv) /\ size self2 = Ok (t * wv, t * hv).
Proof.
  intros d t dist1 dist2 s1 s2 c1 c2 k w h self1 self2 Hk H1 H2.
  apply Screen_init_Ok in H1. destruct H1 as [-> Hv1].
  apply Screen_init_Ok in H2. destruct H2 as [-> Hv2].
  destruct (resolution_pos _ w h Hv1 eq_refl) as [_ Hh].
  exists (width_mm d w h), (height_mm d w h). split.
  - exact (size_valid _ w h Hv1 eq_refl).
  - rewrite (size_valid _ (k * w) (k * h) Hv2 eq_refl). cbn [diagonal].
    unfold width_mm. rewrite !height_mm_linear.
    unfold height_mm. rewrite (aspect_ratio_scale k w h Hk Hh).
    f_equal. f_equal. ring.
Qed.

Lemma size_scales_witness :
  exists wv hv : R,
    size (mkScreen 27 (PyTuple [PyInt 1920; PyInt 1080]) 600 None 1) = Ok (wv, hv) /\
    size (mkScreen (2 * 27) (PyTuple [PyInt (2 * 1920); PyInt (2 * 1080)]) 600 None 1) =
    Ok (2 * wv, 2 * hv).
Proof.
  apply (size_scales 27 2 600 600 1 1 None None 2 1920 1080);
    [reflexivity | exact Screen_init_flat_monitor |].
  unfold Screen_init. destruct (Rle_dec (2 * 27) 0); [lra |]. simpl.
  destruct (Rle_dec 600 0); [lra |].
  destruct (Rle_dec 1 0); [lra | reflexivity].
Defined.

(** ** Rounding *)

(** [round] returns one of the two integers around its argument. *)
Lemma py_round_cases (x : R) :
  (py_round x = Int_part x /\ x - IZR (Int_part x) <= 1 / 2) \/
  (py_round x = (Int_part x + 1)%Z /\ 1 / 2 <= x - IZR (Int_part x)).
Proof.
  unfold py_round.
  destruct (Rlt_dec (x - IZR (Int_part x)) (1 / 2)) as [Hlo | Hlo];
    [left; split; [reflexivity | lra] |].
  destruct (Rlt_dec (1 / 2) (x - IZR (Int_part x))) as [Hhi | Hhi];
    [right; split; [reflexivity | lra] |].
  destruct (Z.even (Int_part x)); [left | right]; split; (reflexivity || lra).
Qed.

Lemma Int_part_bounds (x : R) : IZR (Int_part x) <= x < IZR (Int_part x) + 1.
Proof. destruct (base_Int_part x). lra. Qed.

(** [round] is a nearest integer. *)
Lemma py_round_near (x : R) : Rabs (IZR (py_round x) - x) <= 1 / 2.
Proof.
  pose proof (Int_part_bounds x) as Hb.
  destruct (py_round_cases x) as [[-> H] | [-> H]]; [| rewrite plus_IZR];
    apply Rabs_le; lra.
Qed.

(** [round] is monotone. *)
Lemma py_round_le (x y : R) : x <= y -> (py_round x <= py_round y)%Z.
Proof.
  intros Hxy.
  pose proof (Int_part_bounds x) as Hx. pose proof (Int_part_bounds y) as Hy.
  assert (Hf : (Int_part x <= Int_part y)%Z).
  { apply Z.lt_succ_r, lt_IZR. rewrite succ_IZR. lra. }
  destruct (Z.eq_dec (Int_part x) (Int_part y)) as [Heq | Hne].
  - unfold py_round. rewrite <- Heq.
    destruct (Rlt_dec (x - IZR (Int_part x)) (1 / 2));
      destruct (Rlt_dec (y - IZR (Int_part x)) (1 / 2)); try lra; try lia;
      destruct (Rlt_dec (1 / 2) (x - IZR (Int_part x)));
      destruct (Rlt_dec (1 / 2) (y - IZR (Int_part x))); try lra; try lia;
      destruct (Z.even (Int_part x)); lia.
  - destruct (py_round_cases x) as [[-> _] | [-> _]];
      destruct (py_round_cases y) as [[-> _] | [-> _]]; lia.
Qed.

(** On the non-negative reals [round] is 0 up to one half and no further. *)
Lemma py_round_zero_iff (x : R) : 0 <= x -> (py_round x = 0%Z <-> x <= 1 / 2).
Proof.
  intros Hx. split.
  - intros H0. pose proof (Int_part_bounds x) as Hb.
    destruct (py_round_cases x) as [[E Hd] | [E Hd]]; rewrite H0 in E.
    + rewrite <- E in Hd. simpl in Hd. lra.
    + assert (Hi : Int_part x = (-1)%Z) by lia.
      rewrite Hi in Hb. simpl in Hb. lra.
  - intros Hle. destruct (Rlt_dec x (1 / 2)) as [Hlt | Hge].
    + apply py_round_small. lra.
    + assert (Hi : Int_part x = 0%Z) by (symmetry; apply Int_part_spec; simpl; lra).
      unfold py_round. rewrite Hi. simpl.
      destruct (Rlt_dec (x - 0) (1 / 2)); [reflexivity |].
      destruct (Rlt_dec (1 / 2) (x - 0)); [lra | reflexivity].
Qed.

(** X5.  On every constructed screen [ppi] is a nearest integer to the
    density resolution[0] / (width / 25.4): it is not negative, at most one
    half away from the density, and it is 0, so that [pixel_size] raises
    [ZeroDivisionError], exactly when the density is at most one half. *)
Theorem ppi_nearest_density :
  forall (d : R) (r : pyobj) (dist : R) (c : option R) (s : R) (self : Screen),
    Screen_init d r dist c s = Ok self ->
    exists (w h : Z) (wv : R) (p : Z),
      r = (PyTuple [PyInt w; PyInt h]) /\
      width self = Ok wv /\
      ppi self = Ok p /\
      (0 <= p)%Z /\
      Rabs (IZR p - IZR w / (wv / 25.4)) <= 1 / 2 /\
      (p = 0%Z <-> IZR w / (wv / 25.4) <= 1 / 2) /\
      (pixel_size self = Raise ZeroDivisionError <-> IZR w / (wv / 25.4) <= 1 / 2).
Proof.
  intros d r dist c s self H.
  constructed H w h Hr Hs Hv Hres.
  pose proof (ppi_exact_pos self w h Hv Hres) as Hpos.
  assert (Hz : py_round (ppi_exact (diagonal self) w h) = 0%Z <->
               ppi_exact (diagonal self) w h <= 1 / 2)
    by (apply py_round_zero_iff; lra).
  exists w, h, (width_mm (diagonal self) w h),
    (py_round (ppi_exact (diagonal self) w h)).
  split; [assumption |].
  split; [exact (width_valid self w h Hv Hres) |].
  split; [exact (ppi_valid self w h Hv Hres) |].
  split; [exact (ppi_valid_nonneg self w h Hv Hres) |].
  split; [apply py_round_near |].
  split; [exact Hz |].
  rewrite <- Hz. split.
  - intros E.
    destruct (Z.eq_dec (py_round (ppi_exact (diagonal self) w h)) 0) as [Hp | Hp];
      [assumption |].
    destruct (pixel_size_nonzero_ppi self w h Hv Hres Hp) as [E' _].
    rewrite E' in E. discriminate.
  - exact (pixel_size_zero_ppi self w h Hv Hres).
Qed.

Lemma ppi_nearest_density_witness :
  exists (w h : Z) (wv : R) (p : Z),
    (PyTuple [PyInt 1; PyInt 1]) = (PyTuple [PyInt w; PyInt h]) /\
    width one_pixel_wall = Ok wv /\
    ppi one_pixel_wall = Ok p /\
    (0 <= p)%Z /\
    Rabs (IZR p - IZR w / (wv / 25.4)) <= 1 / 2 /\
    (p = 0%Z <-> IZR w / (wv / 25.4) <= 1 / 2) /\
    (pixel_size one_pixel_wall = Raise ZeroDivisionError <->
     IZR w / (wv / 25.4) <= 1 / 2).
Proof.
  exact (ppi_nearest_density 100 (PyTuple [PyInt 1; PyInt 1]) 600 None 1 _ one_pixel_wall_init).
Defined.

(** ** Signs and ranges *)

Lemma inverse_pos (a : R) : 0 < a -> 0 < 1 / a.
Proof. intros Ha. apply Rdiv_lt_0_compat; lra. Qed.

Lemma half_angle_range (q : R) : 0 < q -> 0 < degrees (2 * atan q) < 180.
Proof.
  intros Hq. pose proof (degrees_2atan_bound q) as Hb.
  pose proof (atan_pos q Hq) as Ha.
  split; [apply degrees_pos; lra | lra].
Qed.

(** X6.  Whatever [pixel_size], [ppd] or [ppd_edge] returns on a constructed
    screen, flat or curved, is strictly positive. *)
Theorem pixel_measures_positive :
  forall (d : R) (r : pyobj) (dist : R) (c : option R) (s : R)
         (self : Screen) (v : R),
    Screen_init d r dist c s = Ok self ->
    pixel_size self = Ok v \/ ppd self = Ok v \/ ppd_edge self = Ok v ->
    0 < v.
Proof.
  intros d r dist c s self v H Hret.
  constructed H w h Hr Hs Hv Hres.
  pose proof (valid_distance self Hv) as Hd.
  destruct (Z.eq_dec (py_round (ppi_exact (diagonal self) w h)) 0) as [Hp | Hp].
  { destruct Hret as [E | [E | E]].
    - rewrite (pixel_size_zero_ppi self w h Hv Hres Hp) in E. discriminate.
    - rewrite (ppd_zero_ppi self w h Hv Hres Hp) in E. discriminate.
    - destruct (curvature self) as [x |] eqn:Hc.
      + destruct (Req_dec_T x 0) as [Hx | Hx].
        * rewrite (ppd_edge_zero_curvature self w h x Hv Hres Hc Hx) in E. discriminate.
        * rewrite (ppd_edge_curved_Raise self w h x Hv Hres Hc Hx (or_introl Hp)) in E.
          discriminate.
      + rewrite (ppd_edge_flat_zero_ppi self w h Hv Hres Hc Hp) in E. discriminate. }
  destruct Hret as [E | [E | E]].
  - destruct (pixel_size_nonzero_ppi self w h Hv Hres Hp) as [E' Hpos].
    rewrite E' in E. injection E as <-. exact Hpos.
  - rewrite (ppd_nonzero_ppi self w h Hv Hres Hp) in E. injection E as <-.
    apply inverse_pos. now apply (pixel_angle_pos self w h Hv Hres).
  - destruct (curvature self) as [x |] eqn:Hc.
    + destruct (Req_dec_T x 0) as [Hx | Hx].
      { rewrite (ppd_edge_zero_curvature self w h x Hv Hres Hc Hx) in E. discriminate. }
      destruct (Req_dec_T
                  (arc_edge_distance (width_mm (diagonal self) w h) x (distance self)) 0)
        as [He | He].
      { rewrite (ppd_edge_curved_Raise self w h x Hv Hres Hc Hx (or_intror He)) in E.
        discriminate. }
      rewrite (ppd_edge_curved_Ok self w h x Hv Hres Hc Hx Hp He) in E.
      injection E as <-. apply inverse_pos.
      pose proof (arc_edge_distance_nonneg self w h x) as Hn.
      apply (pixel_angle_pos self w h Hv Hres); [assumption | lra].
    + rewrite (ppd_edge_flat_nonzero_ppi self w h Hv Hres Hc Hp) in E.
      injection E as <-. apply inverse_pos.
      pose proof (flat_edge_distance self w h Hv Hres) as He.
      apply (pixel_angle_pos self w h Hv Hres);
        [assumption | exact (Rlt_trans _ _ _ Hd He)].
Qed.

Lemma flat_monitor_pixel_size : pixel_size flat_monitor = Ok (25.4 / 82).
Proof.
  unfold pixel_size, flat_monitor. rewrite flat_monitor_ppi by lra. cbn [bind].
  apply pydiv_Ok. lra.
Qed.

Lemma pixel_measures_positive_witness : 0 < 25.4 / 82.
Proof.
  apply (pixel_measures_positive 27 (PyTuple [PyInt 1920; PyInt 1080]) 600 None 1 flat_monitor);
    [exact Screen_init_flat_monitor | left; exact flat_monitor_pixel_size].
Defined.

Lemma width_height_order (d : R) (w h : Z) :
  0 < d -> (0 < w)%Z -> (0 < h)%Z ->
  (height_mm d w h < width_mm d w h <-> (h < w)%Z).
Proof.
  intros Hd Hw Hh. pose proof (height_mm_pos d w h Hd) as Hpos.
  apply IZR_lt in Hw, Hh.
  assert (Ha : aspect_ratio w h * IZR h = IZR w)
    by (unfold aspect_ratio; field; lra).
  unfold width_mm. split.
  - intros Hlt. apply lt_IZR. nra.
  - intros Hlt. apply IZR_lt in Hlt. nra.
Qed.

(** X7.  On every constructed screen [fov_vertical] lies strictly between 0
    and 180 degrees; on a flat one so does [fov_horizontal], and it exceeds
    [fov_vertical] exactly when the screen has more pixels across than
    down. *)
Theorem flat_fov_range :
  forall (d : R) (r : pyobj) (dist : R) (c : option R) (s : R) (self : Screen),
    Screen_init d r dist c s = Ok self ->
    exists (w h : Z) (fv : R),
      r = (PyTuple [PyInt w; PyInt h]) /\
      fov_vertical self = Ok fv /\
      0 < fv < 180 /\
      (c = None ->
       exists fh : R,
         fov_horizontal self = Ok fh /\
         0 < fh < 180 /\
         (fv < fh <-> (h < w)%Z)).
Proof.
  intros d r dist c s self H.
  constructed H w h Hr Hs Hv Hres.
  destruct (resolution_pos self w h Hv Hres) as [Hw Hh].
  pose proof (valid_distance self Hv) as Hd.
  pose proof (valid_diagonal self Hv) as Hdiag.
  pose proof (width_valid_pos self w h Hv Hres) as Hwpos.
  pose proof (height_valid_pos self w h Hv) as Hhpos.
  assert (Hcurv : curvature self = c) by (subst self; reflexivity).
  eexists w, h, _.
  split; [assumption |].
  split; [exact (fov_vertical_valid self w h Hv Hres) |].
  split.
  { apply half_angle_range. repeat apply Rdiv_lt_0_compat; lra. }
  intros Hc. rewrite <- Hcurv in Hc.
  eexists. split; [exact (fov_horizontal_flat self w h Hv Hres Hc) |].
  split.
  { apply half_angle_range. repeat apply Rdiv_lt_0_compat; lra. }
  rewrite <- (width_height_order (diagonal self) w h Hdiag Hw Hh).
  split.
  - intros Hlt.
    destruct (Rlt_dec (height_mm (diagonal self) w h) (width_mm (diagonal self) w h))
      as [Hwh | Hwh]; [assumption | exfalso].
    destruct (Req_dec_T (width_mm (diagonal self) w h) (height_mm (diagonal self) w h))
      as [Heq | Hne].
    + rewrite Heq in Hlt. lra.
    + assert (Hhw : width_mm (diagonal self) w h < height_mm (diagonal self) w h) by lra.
      apply (quotient_increasing _ _ (distance self) Hd) in Hhw.
      apply flat_angle_lt in Hhw. lra.
  - intros Hlt. apply flat_angle_lt. now apply quotient_increasing.
Qed.

Lemma flat_fov_range_witness :
  exists (w h : Z) (fv : R),
    (PyTuple [PyInt 1920; PyInt 1080]) = (PyTuple [PyInt w; PyInt h]) /\
    fov_vertical flat_monitor = Ok fv /\
    0 < fv < 180 /\
    (@None R = None ->
     exists fh : R,
       fov_horizontal flat_monitor = Ok fh /\
       0 < fh < 180 /\
       (fv < fh <-> (h < w)%Z)).
Proof.
  exact (flat_fov_range 27 (PyTuple [PyInt 1920; PyInt 1080]) 600 None 1 flat_monitor
           Screen_init_flat_monitor).
Defined.

(** ** Scaled density and resolution *)

Lemma scaled_count (n : Z) (s : R) :
  (0 <= n)%Z -> 0 < s ->
  (0 <= py_round (IZR n / s))%Z /\
  (1 <= s -> (py_round (IZR n / s) <= n)%Z) /\
  (s <= 1 -> (n <= py_round (IZR n / s))%Z) /\
  (py_round (IZR n / s) = 0%Z <-> 2 * IZR n <= s).
Proof.
  intros Hn Hs. apply IZR_le in Hn.
  assert (Hq : 0 <= IZR n / s).
  { unfold Rdiv. apply Rmult_le_pos; [assumption |].
    left. now apply Rinv_0_lt_compat. }
  assert (Hmul : IZR n / s * s = IZR n) by (field; lra).
  split; [now apply py_round_nonneg |].
  split; [| split].
  - intros H1. rewrite <- (py_round_IZR n) at 2. apply py_round_le. nra.
  - intros H1. rewrite <- (py_round_IZR n) at 1. apply py_round_le. nra.
  - rewrite (py_round_zero_iff _ Hq). split; intros H; nra.
Qed.

(** X8.  On every constructed screen [ppi_scaled] and both axes of
    [resolution_scaled] are not negative; a scaling of at least 1 never
    raises them above [ppi] and the resolution, a scaling of at most 1 never
    lowers them below; and an axis of [resolution_scaled] is 0 exactly when
    the scaling is at least twice its pixel count. *)
Theorem scaling_shrinks :
  forall (d : R) (r : pyobj) (dist : R) (c : option R) (s : R) (self : Screen),
    Screen_init d r dist c s = Ok self ->
    exists (w h p ps rw rh : Z),
      r = (PyTuple [PyInt w; PyInt h]) /\
      ppi self = Ok p /\
      ppi_scaled self = Ok ps /\
      resolution_scaled self = Ok (rw, rh) /\
      (0 <= ps /\ 0 <= rw /\ 0 <= rh)%Z /\
      (1 <= s -> (ps <= p /\ rw <= w /\ rh <= h)%Z) /\
      (s <= 1 -> (p <= ps /\ w <= rw /\ h <= rh)%Z) /\
      (rw = 0%Z <-> 2 * IZR w <= s) /\
      (rh = 0%Z <-> 2 * IZR h <= s).
Proof.
  intros d r dist c s self H.
  constructed H w h Hr Hs Hv Hres.
  destruct (resolution_pos self w h Hv Hres) as [Hw Hh].
  pose proof (ppi_valid_nonneg self w h Hv Hres) as Hp.
  pose proof (valid_scaling self Hv) as Hsc.
  assert (Es : scaling self = s) by (subst self; reflexivity).
  rewrite Es in Hsc.
  destruct (scaled_count _ s Hp Hsc) as [P0 [P1 [P2 _]]].
  destruct (scaled_count w s ltac:(lia) Hsc) as [W0 [W1 [W2 W3]]].
  destruct (scaled_count h s ltac:(lia) Hsc) as [H0 [H1 [H2 H3]]].
  do 6 eexists.
  split; [exact Hr |].
  split; [exact (ppi_valid self w h Hv Hres) |].
  split; [rewrite (ppi_scaled_valid self w h Hv Hres), Es; reflexivity |].
  split; [rewrite (resolution_scaled_valid self w h Hv Hres), Es; reflexivity |].
  repeat split; auto.
  - now apply W3.
  - now apply W3.
  - now apply H3.
  - now apply H3.
Qed.

Lemma scaling_shrinks_witness :
  exists (w h p ps rw rh : Z),
    (PyTuple [PyInt 1920; PyInt 1080]) = (PyTuple [PyInt w; PyInt h]) /\
    ppi (mkScreen 27 (PyTuple [PyInt 1920; PyInt 1080]) 600 None 1.25) = Ok p /\
    ppi_scaled (mkScreen 27 (PyTuple [PyInt 1920; PyInt 1080]) 600 None 1.25) = Ok ps /\
    resolution_scaled (mkScreen 27 (PyTuple [PyInt 1920; PyInt 1080]) 600 None 1.25) =
    Ok (rw, rh) /\
    (0 <= ps /\ 0 <= rw /\ 0 <= rh)%Z /\
    (1 <= 1.25 -> (ps <= p /\ rw <= w /\ rh <= h)%Z) /\
    (1.25 <= 1 -> (p <= ps /\ w <= rw /\ h <= rh)%Z) /\
    (rw = 0%Z <-> 2 * IZR w <= 1.25) /\
    (rh = 0%Z <-> 2 * IZR h <= 1.25).
Proof.
  exact (scaling_shrinks 27 (PyTuple [PyInt 1920; PyInt 1080]) 600 None 1.25 _
           Screen_init_scaled_monitor).
Defined.

(** ** Pixels per degree and the distance *)

(** X9.  With diagonal, resolution, curvature and scaling fixed, a returned
    [ppd] is strictly larger at the larger distance, where it returns as
    well. *)
Theorem ppd_increases_with_distance :
  forall (d : R) (r : pyobj) (c : option R) (s dist1 dist2 : R)
         (self1 self2 : Screen) (v1 : R),
    Screen_init d r dist1 c s = Ok self1 ->
    Screen_init d r dist2 c s = Ok self2 ->
    dist1 < dist2 ->
    ppd self1 = Ok v1 ->
    exists v2 : R, ppd self2 = Ok v2 /\ v1 < v2.
Proof.
  intros d r c s dist1 dist2 self1 self2 v1 H1 H2 Hlt E1.
  destruct (Screen_init_inv _ _ _ _ _ _ H1) as [w [h [Hr [Hs1 Hv1]]]].
  apply Screen_init_Ok in H2. destruct H2 as [Hs2 Hv2].
  assert (Hres1 : resolution self1 = (PyTuple [PyInt w; PyInt h])) by (subst self1; exact Hr).
  assert (Hres2 : resolution self2 = (PyTuple [PyInt w; PyInt h])) by (subst self2; exact Hr).
  assert (Hdg : diagonal self2 = diagonal self1) by (subst self1 self2; reflexivity).
  pose proof (valid_distance self1 Hv1) as Hd1.
  assert (Hd12 : distance self1 < distance self2) by (subst self1 self2; exact Hlt).
  destruct (Z.eq_dec (py_round (ppi_exact (diagonal self1) w h)) 0) as [Hp | Hp].
  { rewrite (ppd_zero_ppi self1 w h Hv1 Hres1 Hp) in E1. discriminate. }
  rewrite (ppd_nonzero_ppi self1 w h Hv1 Hres1 Hp) in E1. injection E1 as <-.
  assert (Hp2 : py_round (ppi_exact (diagonal self2) w h) <> 0%Z)
    by (rewrite Hdg; exact Hp).
  rewrite (ppd_nonzero_ppi self2 w h Hv2 Hres2 Hp2), Hdg.
  eexists. split; [reflexivity |].
  destruct (pixel_size_nonzero_ppi self1 w h Hv1 Hres1 Hp) as [_ Hps].
  pose proof (pixel_angle_pos self1 w h Hv1 Hres1 (distance self2) Hp
                (Rlt_trans _ _ _ Hd1 Hd12)) as Ha2.
  unfold Rdiv at 1 4. rewrite !Rmult_1_l.
  apply Rinv_0_lt_contravar; [exact Ha2 |].
  apply degrees_lt, atan_increasing. unfold Rdiv at 1 3.
  apply Rmult_lt_compat_l; [assumption |].
  apply Rinv_0_lt_contravar; lra.
Qed.

Lemma flat_monitor_ppd (dist : R) :
  0 < dist ->
  ppd (mkScreen 27 (PyTuple [PyInt 1920; PyInt 1080]) dist None 1) =
  Ok (1 / degrees (atan (25.4 / 82 / dist))).
Proof.
  intros Hd.
  assert (E : py_round (ppi_exact 27 1920 1080) = 82%Z).
  { pose proof (flat_monitor_ppi dist Hd) as Hp.
    rewrite (ppi_valid _ 1920 1080 (flat_monitor_valid dist Hd) eq_refl) in Hp.
    now injection Hp. }
  rewrite (ppd_nonzero_ppi _ 1920 1080 (flat_monitor_valid dist Hd) eq_refl);
    cbn [diagonal distance]; rewrite E; [reflexivity | discriminate].
Qed.

Lemma ppd_increases_with_distance_witness :
  exists v2 : R,
    ppd (mkScreen 27 (PyTuple [PyInt 1920; PyInt 1080]) 5000 None 1) = Ok v2 /\
    1 / degrees (atan (25.4 / 82 / 600)) < v2.
Proof.
  apply (ppd_increases_with_distance 27 (PyTuple [PyInt 1920; PyInt 1080]) None 1 600 5000
           (mkScreen 27 (PyTuple [PyInt 1920; PyInt 1080]) 600 None 1));
    [apply flat_monitor_init; lra | apply flat_monitor_init; lra | lra
    | apply flat_monitor_ppd; lra].
Defined.

(** ** Curved screens: which side of the arc's chord the eye is on *)

Lemma arc_half_angle_range (wv c : R) :
  0 < wv -> 0 < c -> wv < 2 * PI * c -> 0 < arc_angle wv c / 2 < PI.
Proof.
  intros Hw Hc Hlt. unfold arc_angle.
  assert (E : wv / c / 2 * (2 * c) = wv) by (field; lra).
  split.
  - repeat apply Rdiv_lt_0_compat; lra.
  - apply Rmult_lt_reg_r with (2 * c); [lra |]. rewrite E. lra.
Qed.






(** ** A screen curved around the viewer: curvature = distance *)

Lemma arc_end_dist_centred (wv c : R) :
  arc_end_dist wv c c = c * cos (arc_angle wv c / 2).
Proof. unfold arc_end_dist, arc_depth. ring. Qed.

Lemma arc_edge_distance_centred (wv c : R) :
  0 < c -> arc_edge_distance wv c c = c.
Proof.
  intros Hc. unfold arc_edge_distance. rewrite arc_end_dist_centred.
  unfold arc_width. set (x := arc_angle wv c / 2).
  pose proof (sin2_cos2 x) as Hsc. unfold Rsqr in Hsc.
  replace ((c * cos x) ^ 2 + (2 * c * sin x / 2) ^ 2) with (c ^ 2) by nra.
  apply sqrt_pow2. lra.
Qed.

(** X11.  When the curvature radius equals the distance, the eye is at the
    centre of the arc: [ppd_edge] equals [ppd] (as a value and as an error),
    and for an arc shorter than the half circle (width < pi c)
    [fov_horizontal] is the arc angle width / c in degrees. *)
Theorem centred_arc :
  forall (d : R) (r : pyobj) (c s : R) (self : Screen),
    Screen_init d r c (Some c) s = Ok self ->
    ppd_edge self = ppd self /\
    exists wv : R,
      width self = Ok wv /\
      (wv < PI * c -> fov_horizontal self = Ok (degrees (wv / c))).
Proof.
  intros d r c s self H.
  constructed H w h Hr Hs Hv Hres.
  assert (Hcurv : curvature self = Some c) by (subst self; reflexivity).
  assert (Hdist : distance self = c) by (subst self; reflexivity).
  pose proof (valid_distance self Hv) as Hc. rewrite Hdist in Hc.
  pose proof (width_valid_pos self w h Hv Hres) as Hw.
  split.
  - rewrite (ppd_edge_curved_steps self w h c Hv Hres Hcurv) by lra.
    rewrite Hdist, (arc_edge_distance_centred _ c Hc).
    unfold ppd. rewrite Hdist. reflexivity.
  - exists (width_mm (diagonal self) w h).
    split; [exact (width_valid self w h Hv Hres) |].
    intros Hlt.
    assert (Hx : 0 < arc_angle (width_mm (diagonal self) w h) c / 2 < PI / 2).
    { assert (H2 : width_mm (diagonal self) w h < 2 * PI * c)
        by (pose proof PI_RGT_0; nra).
      destruct (arc_half_angle_range _ c Hw Hc H2) as [Hlo _].
      split; [assumption |]. unfold arc_angle.
      apply Rmult_lt_reg_r with (2 * c); [lra |].
      replace (width_mm (diagonal self) w h / c / 2 * (2 * c))
        with (width_mm (diagonal self) w h) by (field; lra).
      lra. }
    assert (Hcos : 0 < cos (arc_angle (width_mm (diagonal self) w h) c / 2))
      by (apply cos_gt_0; lra).
    rewrite (fov_horizontal_curved self w h c Hv Hres Hcurv);
      rewrite ?Hdist, ?arc_end_dist_centred; [| lra | nra].
    f_equal.
    replace (arc_width (width_mm (diagonal self) w h) c / 2 /
             (c * cos (arc_angle (width_mm (diagonal self) w h) c / 2)))
      with (tan (arc_angle (width_mm (diagonal self) w h) c / 2))
      by (unfold arc_width, tan; field; lra).
    rewrite atan_tan by lra.
    replace (2 * (arc_angle (width_mm (diagonal self) w h) c / 2))
      with (width_mm (diagonal self) w h / c) by (unfold arc_angle; field; lra).
    assert (Hpos : 0 < degrees (width_mm (diagonal self) w h / c))
      by (apply degrees_pos, Rdiv_lt_0_compat; lra).
    unfold normalize_angle.
    destruct (Rge_dec (degrees (width_mm (diagonal self) w h / c)) 0);
      [reflexivity | lra].
Qed.

Lemma example_screen_valid : valid example_screen.
Proof.
  constructor; simpl; try lra.
  - exists 5120%Z, 2160%Z. repeat split; lia.
  - intros c Hc. injection Hc as <-. lra.
Qed.

Lemma example_screen_init :
  Screen_init 45 (PyTuple [PyInt 5120; PyInt 2160]) 800 (Some 800) 1.25 = Ok example_screen.
Proof. exact (valid_Screen_init _ example_screen_valid). Qed.

Lemma centred_arc_witness :
  ppd_edge example_screen = ppd example_screen /\
  exists wv : R,
    width example_screen = Ok wv /\
    (wv < PI * 800 -> fov_horizontal example_screen = Ok (degrees (wv / 800))).
Proof.
  exact (centred_arc 45 (PyTuple [PyInt 5120; PyInt 2160]) 800 1.25 _ example_screen_init).
Defined.

(** ** The textual summary *)

(** An accessor has raised: [__str__] has too, and not all accessors
    return. *)
Ltac str_raised :=
  split;
  [ intros [? Ht]; discriminate Ht
  | intros Hall;
    repeat match goal with
           | H : _ /\ _ |- _ => destruct H
           | H : exists _, _ |- _ => destruct H
           end;
    congruence ].

(** One step of the f-string: the next accessor either returns, or its
    exception ends [__str__]. *)
Ltac str_step :=
  match goal with
  | |- context [bind ?m _] =>
      let E := fresh "E" in
      destruct m eqn:E; cbn [bind]; [| str_raised]
  end.

(** [__str__] returns exactly when every accessor it interpolates returns. *)
Lemma Screen_str_returns_iff (F : formatter) (self : Screen) :
  (exists t, Screen_str F self = Ok t) <->
  (exists v, width self = Ok v) /\
  (exists v, height self = Ok v) /\
  (exists v, size self = Ok v) /\
  (exists v, ppi self = Ok v) /\
  (exists v, ppi_scaled self = Ok v) /\
  (exists v, pixel_size self = Ok v) /\
  (exists v, fov_horizontal self = Ok v) /\
  (exists v, fov_vertical self = Ok v) /\
  (exists v, ppd self = Ok v) /\
  (exists v, ppd_edge self = Ok v) /\
  (exists v, resolution_scaled self = Ok v).
Proof.
  unfold Screen_str.
  destruct (width self) as [w | e] eqn:Ew; cbn [bind]; [| str_raised].
  destruct (height self) as [h | e] eqn:Eh; cbn [bind]; [| str_raised].
  destruct (size self) as [sz | e] eqn:Es; cbn [bind]; [| str_raised].
  do 8 str_step.
  split; [intros _ | intros _; eexists; reflexivity].
  repeat split; eexists; reflexivity.
Qed.

(** The text starts with the name of the class. *)
Lemma Screen_str_prefix (F : formatter) (self : Screen) (t : string) :
  Screen_str F self = Ok t ->
  prefix "Screen(" t = true /\ prefix "Monitor(" t = false.
Proof.
  unfold Screen_str. intros H.
  repeat match type of H with
         | bind ?m _ = _ => destruct m; cbn [bind] in H; [| discriminate H]
         end.
  injection H as <-. split; reflexivity.
Qed.



(** The summary of the flat test panel is returned and starts with
    "Screen(". *)
Example flat_monitor_str :
  exists t, Screen_str dash_formatter flat_monitor = Ok t /\
            prefix "Screen(" t = true /\ prefix "Monitor(" t = false.
Proof.
  assert (Hv : valid flat_monitor) by (apply flat_monitor_valid; lra).
  assert (Hp : py_round (ppi_exact (diagonal flat_monitor) 1920 1080) <> 0%Z).
  { pose proof (flat_monitor_ppi 600 ltac:(lra)) as Hp.
    change (ppi flat_monitor = Ok 82%Z) in Hp.
    rewrite (ppi_valid _ 1920 1080 Hv eq_refl) in Hp. injection Hp as Hp.
    intros H0. unfold flat_monitor in H0. cbn [diagonal] in H0.
    rewrite H0 in Hp. discriminate Hp. }
  assert (Hex : exists t, Screen_str dash_formatter flat_monitor = Ok t).
  { apply Screen_str_returns_iff.
    repeat split; eexists.
    - exact (width_valid _ 1920 1080 Hv eq_refl).
    - exact (height_valid _ 1920 1080 Hv eq_refl).
    - exact (size_valid _ 1920 1080 Hv eq_refl).
    - exact (ppi_valid _ 1920 1080 Hv eq_refl).
    - exact (ppi_scaled_valid _ 1920 1080 Hv eq_refl).
    - exact (proj1 (pixel_size_nonzero_ppi _ 1920 1080 Hv eq_refl Hp)).
    - exact (fov_horizontal_flat _ 1920 1080 Hv eq_refl eq_refl).
    - exact (fov_vertical_valid _ 1920 1080 Hv eq_refl).
    - exact (ppd_nonzero_ppi _ 1920 1080 Hv eq_refl Hp).
    - exact (ppd_edge_flat_nonzero_ppi _ 1920 1080 Hv eq_refl eq_refl Hp).
    - exact (resolution_scaled_valid _ 1920 1080 Hv eq_refl). }
  destruct Hex as [t Ht]. exists t. split; [exact Ht |].
  exact (Screen_str_prefix _ _ _ Ht).
Qed.

(** ** Curved screens: pixels per degree at the edge *)

(** The squared distance from the eye to the edge of the arc. *)
Lemma arc_edge_square (wv c dist : R) :
  arc_end_dist wv c dist ^ 2 + (arc_width wv c / 2) ^ 2 =
  dist ^ 2 + 2 * c * (dist - c) * (cos (arc_angle wv c / 2) - 1).
Proof.
  unfold arc_end_dist, arc_depth, arc_width.
  set (x := arc_angle wv c / 2).
  pose proof (sin2_cos2 x) as Hsc. unfold Rsqr in Hsc.
  replace ((2 * c * sin x / 2) ^ 2) with (c ^ 2 * (1 - cos x * cos x))
    by (rewrite <- Hsc; field).
  ring.
Qed.

Lemma cos_lt_1 (x : R) : 0 < x < PI -> cos x < 1.
Proof.
  intros Hx. rewrite <- cos_0. apply cos_decreasing_1; pose proof PI_RGT_0; lra.
Qed.

Lemma curved_monitor_sqrt :
  2.589 < sqrt (aspect_ratio 3440 1440 ^ 2 + 1) < 2.590.
Proof. apply sqrt_between; unfold aspect_ratio; lra. Qed.

Lemma curved_monitor_width_tight : 796 < width_mm 34 3440 1440 < 797.
Proof.
  pose proof curved_monitor_sqrt as Hs. unfold width_mm, height_mm.
  set (s := sqrt (aspect_ratio 3440 1440 ^ 2 + 1)) in *.
  replace (aspect_ratio 3440 1440 * (34 / s * 25.4))
    with (3440 / 1440 * 34 * (254 / 10) / s)
    by (unfold aspect_ratio; replace 25.4 with (254 / 10) by lra; field; lra).
  apply div_between; lra.
Qed.

(** The curved test panel has 110 pixels per inch. *)
Lemma curved_monitor_ppi : ppi curved_monitor = Ok 110%Z.
Proof.
  rewrite (ppi_valid _ 3440 1440 curved_monitor_valid eq_refl).
  f_equal. apply (py_round_up 109). cbn [diagonal curved_monitor].
  unfold ppi_exact. pose proof curved_monitor_width_tight as Hw.
  apply div_between; lra.
Qed.

(** X13.  On a constructed screen of curvature c > 0 whose [ppi] is not 0
    and whose arc is shorter than the full circle (width < 2 pi c): with the
    eye nearer than the centre of the arc (distance < c) [ppd_edge] and
    [ppd] return and [ppd_edge] is strictly greater; with the eye farther
    than the centre (c < distance) a returned [ppd_edge] is strictly smaller
    than [ppd]. *)
Theorem ppd_edge_curved_order :
  forall (d : R) (r : pyobj) (dist c s : R) (self : Screen) (p : Z) (wv : R),
    Screen_init d r dist (Some c) s = Ok self ->
    0 < c ->
    ppi self = Ok p -> p <> 0%Z ->
    width self = Ok wv -> wv < 2 * PI * c ->
    (dist < c ->
     exists e v : R, ppd_edge self = Ok e /\ ppd self = Ok v /\ v < e) /\
    (c < dist ->
     forall e v : R, ppd_edge self = Ok e -> ppd self = Ok v -> e < v).
Proof.
  intros d r dist c s self p wv H Hc Hppi Hp Hwv Hlt.
  constructed H w h Hr Hs Hv Hres.
  assert (Hcurv : curvature self = Some c) by (subst self; reflexivity).
  assert (Hdist : distance self = dist) by (subst self; reflexivity).
  pose proof (valid_distance self Hv) as Hd. rewrite Hdist in Hd.
  rewrite (ppi_valid self w h Hv Hres) in Hppi. injection Hppi as Hppi.
  rewrite <- Hppi in Hp.
  rewrite (width_valid self w h Hv Hres) in Hwv. injection Hwv as Hwv.
  rewrite <- Hwv in Hlt.
  pose proof (width_valid_pos self w h Hv Hres) as Hw.
  pose proof (arc_half_angle_range _ c Hw Hc Hlt) as Hx.
  pose proof (cos_lt_1 _ Hx) as Hcos.
  pose proof (arc_edge_square (width_mm (diagonal self) w h) c dist) as Hsq.
  destruct (pixel_size_nonzero_ppi self w h Hv Hres Hp) as [_ Hps].
  assert (Hc0 : c <> 0) by lra.
  rewrite (ppd_nonzero_ppi self w h Hv Hres Hp), Hdist.
  set (edge := arc_edge_distance (width_mm (diagonal self) w h) c dist).
  assert (Hedge : edge = sqrt (arc_end_dist (width_mm (diagonal self) w h) c dist ^ 2 +
                               (arc_width (width_mm (diagonal self) w h) c / 2) ^ 2))
    by reflexivity.
  assert (Hdsq : sqrt (dist ^ 2) = dist) by (apply sqrt_pow2; lra).
  split.
  - intros Hnear.
    assert (Hdelta : 0 < 2 * c * (dist - c) *
                         (cos (arc_angle (width_mm (diagonal self) w h) c / 2) - 1)).
    { replace (2 * c * (dist - c) *
               (cos (arc_angle (width_mm (diagonal self) w h) c / 2) - 1))
        with (2 * c * ((c - dist) *
               (1 - cos (arc_angle (width_mm (diagonal self) w h) c / 2)))) by ring.
      apply Rmult_lt_0_compat; [lra |]. apply Rmult_lt_0_compat; lra. }
    assert (He : dist < edge).
    { rewrite Hedge, Hsq. rewrite <- Hdsq at 1. apply sqrt_lt_1; nra. }
    rewrite (ppd_edge_curved_Ok self w h c Hv Hres Hcurv Hc0 Hp);
      rewrite Hdist; fold edge; [| lra].
    eexists. eexists. split; [reflexivity | split; [reflexivity |]].
    pose proof (pixel_angle_pos self w h Hv Hres edge Hp ltac:(lra)) as Ha.
    unfold Rdiv at 1 4. rewrite !Rmult_1_l.
    apply Rinv_0_lt_contravar; [exact Ha |].
    apply degrees_lt, atan_increasing. unfold Rdiv at 1 3.
    apply Rmult_lt_compat_l; [assumption |].
    apply Rinv_0_lt_contravar; lra.
  - intros Hfar e v Ee Ev. injection Ev as <-.
    pose proof (arc_edge_distance_nonneg self w h c) as Hn.
    rewrite Hdist in Hn. fold edge in Hn.
    destruct (Req_dec_T edge 0) as [He0 | He0].
    { rewrite (ppd_edge_curved_Raise self w h c Hv Hres Hcurv Hc0) in Ee;
        [discriminate | right; rewrite Hdist; exact He0]. }
    rewrite (ppd_edge_curved_Ok self w h c Hv Hres Hcurv Hc0 Hp) in Ee;
      rewrite Hdist in *; fold edge in Ee |- *; [| exact He0].
    injection Ee as <-.
    assert (Hdelta : 2 * c * (dist - c) *
                     (cos (arc_angle (width_mm (diagonal self) w h) c / 2) - 1) < 0).
    { replace (2 * c * (dist - c) *
               (cos (arc_angle (width_mm (diagonal self) w h) c / 2) - 1))
        with (- (2 * c * ((dist - c) *
               (1 - cos (arc_angle (width_mm (diagonal self) w h) c / 2))))) by ring.
      apply Ropp_lt_gt_0_contravar. apply Rmult_lt_0_compat; [lra |].
      apply Rmult_lt_0_compat; lra. }
    assert (Hnn : 0 <= arc_end_dist (width_mm (diagonal self) w h) c dist ^ 2 +
                       (arc_width (width_mm (diagonal self) w h) c / 2) ^ 2) by nra.
    assert (He : edge < dist).
    { rewrite Hedge. rewrite <- Hdsq at 2. apply sqrt_lt_1; [exact Hnn | nra |].
      rewrite Hsq. lra. }
    pose proof (pixel_angle_pos self w h Hv Hres dist Hp Hd) as Ha.
    unfold Rdiv at 1 4. rewrite !Rmult_1_l.
    apply Rinv_0_lt_contravar; [exact Ha |].
    apply degrees_lt, atan_increasing. unfold Rdiv at 1 3.
    apply Rmult_lt_compat_l; [assumption |].
    apply Rinv_0_lt_contravar; lra.
Qed.

Lemma ppd_edge_curved_order_witness :
  (700 < 1000 ->
   exists e v : R,
     ppd_edge curved_monitor = Ok e /\ ppd curved_monitor = Ok v /\ v < e) /\
  (1000 < 700 ->
   forall e v : R,
     ppd_edge curved_monitor = Ok e -> ppd curved_monitor = Ok v -> e < v).
Proof.
  pose proof curved_monitor_width_tight as Hw. pose proof PI2_3_2 as Hpi.
  apply (ppd_edge_curved_order 34 (PyTuple [PyInt 3440; PyInt 1440]) 700 1000 1
           curved_monitor 110%Z (width_mm 34 3440 1440));
    [exact Screen_init_curved_monitor | lra | exact curved_monitor_ppi
    | discriminate
    | exact (width_valid _ 3440 1440 curved_monitor_valid eq_refl) | lra].
Defined.
